(** * Resume screener: text extraction and skill reconciliation

    A shallow embedding of [src/utils.py] and of the extraction and
    orchestration code of [src/main.py], with the properties of the
    specification stated over it.

    Conventions of the embedding.
    - A Python [str] is a [string]; a character is its code point, below
      256.  [lower] and [strip] follow [str.lower] and [str.strip] on that
      range.
    - A Python [dict] that is iterated (the synonym table) is an association
      list in insertion order; a [dict] that is only indexed is a [gmap].
    - A Python [set] is a [gset]; the order in which a set is iterated or
      turned into a list is not fixed by the language, so it is a parameter
      ([SetIteration]) of which only "some enumeration of the set" is known.
    - Exceptions are values of [exn]; code that can raise returns a
      [outcome].  Code that touches the file system is a state transformer
      over [filesystem].
    - Third-party libraries (pathlib, PyPDF2, python-docx, rapidfuzz, the
      [float] constructor) and the hosted-model collaborators are
      interfaces: type classes whose methods are the calls the source
      makes. *)

From Stdlib Require Import String Ascii List ZArith QArith Lia Bool.
From Stdlib Require Import SpecFloat.
From stdpp Require Import base option list gmap sets strings.

Local Open Scope string_scope.
Local Open Scope list_scope.

(** ** Python strings *)

Module PyStr.

(** Code points with an upper-case form below 256: A-Z, and the Latin-1
    capitals 0xC0-0xDE except the multiplication sign 0xD7. *)
Definition is_upper (c : ascii) : bool :=
  let n := nat_of_ascii c in
  ((65 <=? n) && (n <=? 90))%nat
  || ((192 <=? n) && (n <=? 222) && negb (n =? 215))%nat.

Definition lower_char (c : ascii) : ascii :=
  if is_upper c then ascii_of_nat (nat_of_ascii c + 32) else c.

(** [str.lower] *)
Fixpoint lower (s : string) : string :=
  match s with
  | EmptyString => EmptyString
  | String c s' => String (lower_char c) (lower s')
  end.

(** The characters [str.strip()] removes: TAB-CR, FS-US, space, NEL and
    the no-break space. *)
Definition is_space (c : ascii) : bool :=
  let n := nat_of_ascii c in
  ((9 <=? n) && (n <=? 13))%nat || ((28 <=? n) && (n <=? 32))%nat
  || (n =? 133)%nat || (n =? 160)%nat.

Fixpoint lstrip (s : string) : string :=
  match s with
  | EmptyString => EmptyString
  | String c s' => if is_space c then lstrip s' else s
  end.

Fixpoint rstrip (s : string) : string :=
  match s with
  | EmptyString => EmptyString
  | String c s' =>
      let r := rstrip s' in
      if is_space c && String.eqb r EmptyString then EmptyString
      else String c r
  end.

(** [str.strip()] *)
Definition strip (s : string) : string := rstrip (lstrip s).

(** [s.startswith(p)] *)
Definition startswith (s p : string) : bool := String.prefix p s.

(** [p in s] for strings: [p] occurs in [s] as a contiguous substring. *)
Fixpoint contains (p s : string) : bool :=
  String.prefix p s ||
  match s with
  | EmptyString => false
  | String _ s' => contains p s'
  end.

(** [sep.join(parts)] *)
Fixpoint join (sep : string) (parts : list string) : string :=
  match parts with
  | [] => EmptyString
  | [p] => p
  | p :: rest => p +:+ sep +:+ join sep rest
  end.

(** A string that is empty or starts with a character [strip] keeps. *)
Definition no_leading_space (s : string) : Prop :=
  match s with
  | EmptyString => True
  | String c _ => is_space c = false
  end.

(** Truthiness of a string: [bool(s)]. *)
Definition truthy (s : string) : bool := negb (String.eqb s EmptyString).

(** [x in xs] for a list of strings. *)
Definition in_list (x : string) (xs : list string) : bool :=
  existsb (String.eqb x) xs.

(** The newline character as a string. *)
Definition nl : string := String (ascii_of_nat 10) EmptyString.

End PyStr.

(** Iterating over a Python set, or [list(a_set)]: some enumeration of the
    elements, each once.  Nothing else is known about the order. *)
Class SetIteration := {
  list_of_set : gset string -> list string;
  list_of_set_perm : forall X : gset string, list_of_set X ≡ₚ elements X
}.

(** ** Exceptions *)

(** The exception classes the code raises or lets through.  All of them
    derive from [Exception].  The specification's error names map to them:
    NotFound is [FileNotFoundError], UnsupportedFormat is [ValueError], and
    CorruptDocument is whatever the decoding library raises
    ([LibraryError]). *)
Inductive exn :=
| FileNotFoundError (msg : string)
| ValueError (msg : string)
| TypeError (msg : string)
| AttributeError (msg : string)
| OSError (msg : string)
| LibraryError (msg : string).

Inductive outcome (A : Type) :=
| Ok (a : A)
| Raise (e : exn).
Arguments Ok {A} a.
Arguments Raise {A} e.

(** [try: body / except Exception: handler] on a computed outcome. *)
Definition try_except {A} (body : outcome A) (handler : exn -> outcome A)
  : outcome A :=
  match body with
  | Ok a => Ok a
  | Raise e => handler e
  end.

(** ** Documents as the parsing libraries present them *)

(** The value under [/URI]: a text string, or another PDF object with its
    truth value and its [str()]. *)
Inductive uri_object :=
| UriStr (s : string)
| UriOther (truth : bool) (repr : string).

(** What [action.get_object()] gives: a dictionary with its [/URI] entry
    (if any), or an object that is not a dictionary. *)
Inductive action_object :=
| ActionDict (URI : option uri_object)
| ActionOther.

(** The value under [/A]: [get_object()] succeeds, or raises (the
    unresolved reference is then kept, and is not a dictionary). *)
Inductive action_ref :=
| ActionResolves (a : action_object)
| ActionDangling.

(** What [annotation_ref.get_object()] gives when it succeeds: a dictionary
    with its [/Subtype] and its truthy [/A] (if any), or an object without
    [get]. *)
Inductive annotation_object :=
| AnnotDict (Subtype : option string) (A : option action_ref)
| AnnotOther.

Inductive annotation_ref :=
| AnnotResolves (a : annotation_object)
| AnnotDangling.

(** [page.get("/Annots")]: absent, a list, or a single object. *)
Inductive annots :=
| AnnotsList (l : list annotation_ref)
| AnnotsSingle (r : annotation_ref).

(** A page: [extract_text()] ([None] when it raises or returns [None]) and
    its [/Annots]. *)
Record pdf_page := {
  page_text : option string;
  Annots : option annots
}.

(** [PdfReader(file).pages] *)
Definition pdf_document := list pdf_page.

(** A relationship of a Word document part. *)
Record relationship := {
  reltype : string;
  target_ref : string
}.

(** [docx.Document(f)]: [doc.paragraphs] (the [text] of each) and the values
    of [doc.part.rels], in order. *)
Record docx_document := {
  paragraphs : list (option string);
  rels : list relationship
}.

Abbreviation bytes := (list Byte.byte).
Abbreviation filesystem := (gmap string (list Byte.byte)).

#[export] Instance byte_eq_decision : EqDecision Byte.byte := Byte.byte_eq_dec.

(** ** Third-party libraries *)

Class Libraries := {
  (** [pathlib.Path(p).suffix] *)
  path_suffix : string -> string;
  (** [PyPDF2.PdfReader] on the content of a file, with its pages read *)
  PdfReader : bytes -> outcome pdf_document;
  (** [docx.Document] on the content of a file *)
  Document : bytes -> outcome docx_document;
  (** [rapidfuzz.fuzz.token_set_ratio(a, b)] *)
  token_set_ratio : string -> string -> outcome Q;
  (** [float(s)] on a string; raises [ValueError] when [s] is no number *)
  float_of_str : string -> outcome spec_float
}.

(** ** src/utils.py *)

Module Utils.
Import PyStr.

(** [SKILL_SYNONYMS]: canonical name to variants, in insertion order. *)
Definition SKILL_SYNONYMS : list (string * list string) :=
  [ ("sql", ["mysql"; "postgresql"; "sqlite"; "mariadb"]);
    ("nosql", ["mongodb"; "cassandra"; "dynamodb"; "couchdb"]);
    ("ml", ["machine learning"; "ml"; "ai"]);
    ("nlp", ["natural language processing"; "text analytics"]);
    ("frontend", ["react"; "vue"; "angular"; "html"; "css"; "javascript"]);
    ("backend", ["fastapi"; "django"; "flask"; "node.js"]) ].

(** The inner loop of [normalize_skills]: the first entry of the table
    with [skill == canonical or skill in variants], if any. *)
Fixpoint first_match (table : list (string * list string)) (skill : string)
  : option string :=
  match table with
  | [] => None
  | (canonical, variants) :: rest =>
      if String.eqb skill canonical || in_list skill variants
      then Some canonical
      else first_match rest skill
  end.

(** One iteration of the outer loop: [normalized.add(canonical)] on a
    match, [normalized.add(skill)] when [matched] stayed false. *)
Definition normalize_step (normalized : gset string) (skill : string)
  : gset string :=
  match first_match SKILL_SYNONYMS skill with
  | Some canonical => normalized ∪ {[ canonical ]}
  | None => normalized ∪ {[ skill ]}
  end.

(** The set [normalized] at the end of [normalize_skills]. *)
Definition normalized_set (skills : list string) : gset string :=
  let skills := map (fun s => strip (lower s)) skills in
  foldl normalize_step ∅ skills.

(** [normalize_skills(skills)]: [list(normalized)]. *)
Definition normalize_skills `{SetIteration} (skills : list string)
  : list string :=
  list_of_set (normalized_set skills).

(** The map applied to one lower-case trimmed token (the specification's
    [lookup_canonical]): what the loop body adds for it. *)
Definition lookup_canonical (token : string) : string :=
  match first_match SKILL_SYNONYMS token with
  | Some canonical => canonical
  | None => token
  end.

(** [set(sum(SKILL_SYNONYMS.values(), [])) | set(SKILL_SYNONYMS.keys())] *)
Definition all_known : gset string :=
  list_to_set (concat (map snd SKILL_SYNONYMS))
  ∪ list_to_set (map fst SKILL_SYNONYMS).

(** [[t for t in all_known if t in jd_text_lower]] *)
Definition jd_terms_of `{SetIteration} (jd_text : string) : list string :=
  let jd_text_lower := lower jd_text in
  List.filter (fun t => contains t jd_text_lower) (list_of_set all_known).

(** [score > result[1]], with [result is None] counted as an improvement. *)
Definition improves (score : Q) (best : option (string * Q * nat)) : bool :=
  match best with
  | None => true
  | Some (_, s, _) => negb (Qle_bool score s)
  end.

(** The selection loop of [rapidfuzz.process.extractOne(query, choices,
    scorer=fuzz.token_set_ratio)]: the choices are scored in order; a
    choice replaces the current result when its score reaches the cutoff
    (initially the scorer's worst score, 0) and is strictly better; the
    loop stops at the optimal score, 100.  (The library also hands the
    running cutoff to the scorer, which then reports 0 for a score below
    it; the selection is the same.) *)
Fixpoint extractOne_from `{Libraries} (query : string) (choices : list string)
  (key : nat) (score_cutoff : Q) (best : option (string * Q * nat))
  : outcome (option (string * Q * nat)) :=
  match choices with
  | [] => Ok best
  | choice :: rest =>
      match token_set_ratio query choice with
      | Raise e => Raise e
      | Ok score =>
          let take := Qle_bool score_cutoff score && improves score best in
          let best' := if take then Some (choice, score, key) else best in
          let cutoff' := if take then score else score_cutoff in
          if Qeq_bool score 100 then Ok best'
          else extractOne_from query rest (S key) cutoff' best'
      end
  end.

Definition extractOne `{Libraries} (query : string) (choices : list string)
  : outcome (option (string * Q * nat)) :=
  extractOne_from query choices 0%nat 0%Q None.

(** The body of the loop over [skills]: what is appended to [matched]. *)
Definition matched_for `{Libraries} (jd_terms : list string) (threshold : Q)
  (skill : string) : list string :=
  match extractOne skill jd_terms with
  | Ok (Some (match_, score, _)) =>
      if Qle_bool threshold score then [match_] else []
  | Ok None => []
  | Raise _ => []  (* the error is printed and the loop continues *)
  end.

(** [fuzzy_expand_skills(skills, jd_text, threshold)] *)
Definition fuzzy_expand_skills `{SetIteration} `{Libraries}
  (skills : list string) (jd_text : string) (threshold : Q) : list string :=
  if bool_decide (skills = []) || negb (truthy jd_text) then skills
  else
    let jd_terms := jd_terms_of jd_text in
    if bool_decide (jd_terms = []) then skills
    else
      let matched := flat_map (matched_for jd_terms threshold) skills in
      list_of_set (list_to_set (skills ++ matched)).

(** The default of the [threshold] argument. *)
Definition default_threshold : Q := 85.

End Utils.

(** ** src/main.py: [ResumeExtractor] *)

Module ResumeExtractor.
Import PyStr.

(** The state of the URL scan: still running, or left through the outer
    [except Exception] with the URLs collected so far. *)
Inductive scan :=
| Continue (urls : list string)
| Abort (urls : list string).

Definition scanned (s : scan) : list string :=
  match s with
  | Continue urls => urls
  | Abort urls => urls
  end.

(** [if uri:] *)
Definition uri_truthy (uri : uri_object) : bool :=
  match uri with
  | UriStr s => truthy s
  | UriOther truth _ => truth
  end.

(** [uri if isinstance(uri, str) else str(uri)] *)
Definition uri_url (uri : uri_object) : string :=
  match uri with
  | UriStr s => s
  | UriOther _ repr => repr
  end.

(** [action.get_object()] with its failure passed over, then
    [action.get("/URI") if isinstance(action, dict) else None]. *)
Definition action_uri (action : action_ref) : option uri_object :=
  match action with
  | ActionResolves (ActionDict uri) => uri
  | ActionResolves ActionOther => None
  | ActionDangling => None
  end.

(** [annotation.get("/Subtype") == "/Link"] *)
Definition is_link (subtype : option string) : bool :=
  match subtype with
  | Some name => String.eqb name "/Link"
  | None => false
  end.

(** [if url not in urls: urls.append(url)] *)
Definition add_url (urls : list string) (url : string) : list string :=
  if in_list url urls then urls else urls ++ [url].

(** The body of the loop over the annotations of a page. *)
Definition visit_annotation (urls : list string) (annotation_ref : annotation_ref)
  : scan :=
  match annotation_ref with
  | AnnotDangling => Continue urls
  | AnnotResolves AnnotOther => Abort urls
  | AnnotResolves (AnnotDict subtype action) =>
      if negb (is_link subtype) then Continue urls
      else
        match action with
        | None => Continue urls
        | Some action =>
            match action_uri action with
            | Some uri =>
                if uri_truthy uri then Continue (add_url urls (uri_url uri))
                else Continue urls
            | None => Continue urls
            end
        end
  end.

Fixpoint visit_annotations (urls : list string) (annotations : list annotation_ref)
  : scan :=
  match annotations with
  | [] => Continue urls
  | annotation_ref :: rest =>
      match visit_annotation urls annotation_ref with
      | Continue urls' => visit_annotations urls' rest
      | Abort urls' => Abort urls'
      end
  end.

(** The body of the loop over the pages: nothing for a page without
    annotations, a single object is wrapped into a list. *)
Definition visit_page (urls : list string) (page : pdf_page) : scan :=
  match Annots page with
  | None => Continue urls
  | Some (AnnotsList annotations) => visit_annotations urls annotations
  | Some (AnnotsSingle annotations) => visit_annotations urls [annotations]
  end.

Fixpoint visit_pages (urls : list string) (pages : list pdf_page) : scan :=
  match pages with
  | [] => Continue urls
  | page :: rest =>
      match visit_page urls page with
      | Continue urls' => visit_pages urls' rest
      | Abort urls' => Abort urls'
      end
  end.

(** [extract_urls_from_pdf(file_path)]: a file that cannot be opened or
    parsed gives no URL; a failure during the scan keeps those found. *)
Definition extract_urls_from_pdf `{Libraries} (fs : filesystem)
  (file_path : string) : list string :=
  match fs !! file_path with
  | None => []
  | Some content =>
      match PdfReader content with
      | Raise _ => []
      | Ok pages => scanned (visit_pages [] pages)
      end
  end.

(** The body of the loop over [rels.values()]. *)
Definition visit_rel (urls : list string) (rel : relationship) : list string :=
  if contains "hyperlink" (reltype rel) then
    let url := target_ref rel in
    if truthy url && negb (in_list url urls) then
      if negb (startswith url "#") then urls ++ [url] else urls
    else urls
  else urls.

(** [docx.Document(file_path)]: the package must exist and decode. *)
Definition Document_at `{Libraries} (fs : filesystem) (file_path : string)
  : outcome docx_document :=
  match fs !! file_path with
  | None => Raise (LibraryError ("Package not found at " +:+ file_path))
  | Some content => Document content
  end.

(** [extract_urls_from_docx(file_path)] *)
Definition extract_urls_from_docx `{Libraries} (fs : filesystem)
  (file_path : string) : list string :=
  match Document_at fs file_path with
  | Raise _ => []
  | Ok doc => foldl visit_rel [] (rels doc)
  end.

(** [if urls: text += header; for url in urls: text += f"- {url}\n"] *)
Definition append_urls (text : string) (urls : list string) : string :=
  match urls with
  | [] => text
  | _ :: _ =>
      foldl (fun text url => text +:+ ("- " +:+ url +:+ nl))
        (text +:+ (nl +:+ nl +:+ "EXTRACTED URLS/LINKS:" +:+ nl)) urls
  end.

(** [extract_text_from_pdf(file_path)] *)
Definition extract_text_from_pdf `{Libraries} (fs : filesystem)
  (file_path : string) : outcome string :=
  match fs !! file_path with
  | None => Raise (FileNotFoundError file_path)
  | Some content =>
      match PdfReader content with
      | Raise e => Raise e
      | Ok pages =>
          let text_parts := map (fun page => default "" (page_text page)) pages in
          let text := join nl text_parts in
          let urls := extract_urls_from_pdf fs file_path in
          Ok (append_urls text urls)
      end
  end.

(** [[paragraph.text for paragraph in doc.paragraphs]] handed to [join],
    which raises on an element that is not a string. *)
Fixpoint texts_of (paragraphs : list (option string)) : outcome (list string) :=
  match paragraphs with
  | [] => Ok []
  | None :: _ => Raise (TypeError "sequence item: expected str instance")
  | Some t :: rest =>
      match texts_of rest with
      | Ok ts => Ok (t :: ts)
      | Raise e => Raise e
      end
  end.

(** [extract_text_from_docx(file_path)] *)
Definition extract_text_from_docx `{Libraries} (fs : filesystem)
  (file_path : string) : outcome string :=
  match Document_at fs file_path with
  | Raise e => Raise e
  | Ok doc =>
      match texts_of (paragraphs doc) with
      | Raise e => Raise e
      | Ok ts =>
          let text := join nl ts in
          let urls := extract_urls_from_docx fs file_path in
          Ok (append_urls text urls)
      end
  end.

(** The operating system as seen by [extract_text_from_pdf_bytes]: the name
    [tempfile] picks, and which of its calls fail. *)
Record os_env := {
  tmp_name : string;
  create_fails : bool;
  write_fails : bool;
  remove_fails : bool
}.

(** [tempfile.NamedTemporaryFile(delete=False, suffix=".pdf")]: an empty
    file under a name that is not empty and not in use. *)
Definition NamedTemporaryFile (env : os_env) (fs : filesystem)
  : outcome string * filesystem :=
  if create_fails env || negb (truthy (tmp_name env))
     || bool_decide (is_Some (fs !! tmp_name env))
  then (Raise (OSError "cannot create temporary file"), fs)
  else (Ok (tmp_name env), <[tmp_name env := []]> fs).

(** [tmp.write(file_bytes)] and the close at the end of the [with]. *)
Definition write (env : os_env) (name : string) (file_bytes : bytes)
  (fs : filesystem) : outcome unit * filesystem :=
  if write_fails env then (Raise (OSError "write failed"), fs)
  else (Ok tt, <[name := file_bytes]> fs).

(** [os.remove(path)] *)
Definition os_remove (env : os_env) (path : string) (fs : filesystem)
  : outcome unit * filesystem :=
  if remove_fails env then (Raise (OSError "cannot remove"), fs)
  else match fs !! path with
       | None => (Raise (FileNotFoundError path), fs)
       | Some _ => (Ok tt, delete path fs)
       end.

(** The [with] block: the value of [tmp_path] after it ([None] when it was
    left by an exception, before the assignment), its outcome, and the
    files. *)
Definition stage (env : os_env) (file_bytes : bytes) (fs : filesystem)
  : option string * outcome unit * filesystem :=
  match NamedTemporaryFile env fs with
  | (Raise e, fs1) => (None, Raise e, fs1)
  | (Ok name, fs1) =>
      match write env name file_bytes fs1 with
      | (Raise e, fs2) => (None, Raise e, fs2)
      | (Ok _, fs2) => (Some name, Ok tt, fs2)
      end
  end.

(** The [finally] block: [if tmp_path: try: os.remove(tmp_path) / except
    Exception: pass].  It gives the exception it raises, if any. *)
Definition cleanup (env : os_env) (tmp_path : option string) (fs : filesystem)
  : outcome unit * filesystem :=
  match tmp_path with
  | None => (Ok tt, fs)
  | Some path =>
      if truthy path then
        let '(r, fs') := os_remove env path fs in
        (try_except r (fun _ => Ok tt), fs')
      else (Ok tt, fs)
  end.

(** [try: body / finally: cleanup]: the outcome of the body, unless the
    cleanup raises. *)
Definition finally {A} (body : outcome A) (cleaned : outcome unit) : outcome A :=
  match cleaned with
  | Raise e => Raise e
  | Ok _ => body
  end.

(** [extract_text_from_pdf_bytes(file_bytes)] *)
Definition extract_text_from_pdf_bytes `{Libraries} (env : os_env)
  (file_bytes : bytes) (fs : filesystem) : outcome string * filesystem :=
  let '(tmp_path, staged, fs1) := stage env file_bytes fs in
  let body :=
    match staged, tmp_path with
    | Ok _, Some path => extract_text_from_pdf fs1 path
    | Ok _, None => Raise (TypeError "expected str, not NoneType")
    | Raise e, _ => Raise e
    end in
  let '(cleaned, fs2) := cleanup env tmp_path fs1 in
  (finally body cleaned, fs2).

(** [extract_text_from_docx_bytes(file_bytes)] *)
Definition extract_text_from_docx_bytes `{Libraries} (file_bytes : bytes)
  : outcome string :=
  match Document file_bytes with
  | Raise e => Raise e
  | Ok doc =>
      Ok (join nl (map (fun text => default "" text) (paragraphs doc)))
  end.

(** The message of the [ValueError] for an extension without a handler. *)
Definition unsupported (extension : string) : exn :=
  ValueError ("Unsupported file format: " +:+ extension
              +:+ ". Supported formats: .pdf, .docx, .doc").

(** [extract_text_from_bytes(file_bytes, filename)] *)
Definition extract_text_from_bytes `{Libraries} (env : os_env)
  (file_bytes : bytes) (filename : string) (fs : filesystem)
  : outcome string * filesystem :=
  let extension := lower (path_suffix filename) in
  if String.eqb extension ".pdf" then
    extract_text_from_pdf_bytes env file_bytes fs
  else if in_list extension [".docx"; ".doc"] then
    (extract_text_from_docx_bytes file_bytes, fs)
  else (Raise (unsupported extension), fs).

(** [extract_text_from_file(file_path)] *)
Definition extract_text_from_file `{Libraries} (fs : filesystem)
  (file_path : string) : outcome string :=
  if negb (bool_decide (is_Some (fs !! file_path))) then
    Raise (FileNotFoundError ("File not found: " +:+ file_path))
  else
    let extension := lower (path_suffix file_path) in
    if String.eqb extension ".pdf" then extract_text_from_pdf fs file_path
    else if in_list extension [".docx"; ".doc"] then
      extract_text_from_docx fs file_path
    else Raise (unsupported extension).

End ResumeExtractor.

(** ** Untyped payloads *)

#[local] Set Warnings "-register-all".

(** The values of the mappings exchanged with the collaborators. *)
Inductive value :=
| VNone
| VBool (b : bool)
| VInt (z : Z)
| VFloat (f : spec_float)
| VStr (s : string)
| VList (items : list value)
| VDict (entries : gmap string value).

(** What the scoring collaborator hands back: a model object, with the
    attribute [overall_score] and [model_dump(exclude_none=True)], or a
    plain [dict], which has neither. *)
Inductive screening_result :=
| ScreeningModel (dump : gmap string value)
| ScreeningDict (d : gmap string value).

(** The hosted-model collaborators.  They read their arguments and change
    none of them. *)
Class Collaborators := {
  (** [ResumeParser.parse_resume(text).model_dump(exclude_none=True)] *)
  parser_parse_resume : string -> outcome (gmap string value);
  (** [ResumeScreener.screen_resume(parsed_resume, job_title,
      job_description, weights)] *)
  screener_screen_resume :
    gmap string value -> string -> string -> option value ->
    outcome screening_result;
  (** [ResumeOptimizer.generate_suggestions(parsed_resume, job_title,
      job_description, screening_result)], by its [model_dump] *)
  optimizer_generate_suggestions :
    gmap string value -> string -> string -> value ->
    outcome (gmap string value)
}.

(** The store of the mappings that are shared by reference: the parsed
    resume is created once and handed to [screen_resume], to the
    collaborators and back to the caller. *)
Abbreviation heap := (gmap nat (gmap string value)).

(** ** src/main.py: [ResumeProcessor] *)

Module ResumeProcessor.
Import PyStr.

(** [object_keys] *)
Definition object_keys : list string :=
  [ "project_match"; "education_match"; "experience_match"; "skill_match";
    "cultural_fit" ].

(** The body of the loop over [object_keys]. *)
Definition normalize_object_key (result : gmap string value) (key : string)
  : gmap string value :=
  match result !! key with
  | None => result
  | Some (VStr val) => <[key := VDict {[ "text" := VStr val ]}]> result
  | Some (VList val) => <[key := VDict {[ "items" := VList val ]}]> result
  | Some VNone => <[key := VDict ∅]> result
  | Some _ => result
  end.

(** The [overall_score] block: a string is replaced by [float] of it; when
    that raises, the key is popped. *)
Definition normalize_overall_score `{Libraries} (result : gmap string value)
  : outcome (gmap string value) :=
  match result !! "overall_score" with
  | None => Ok result
  | Some val =>
      try_except
        match val with
        | VStr s =>
            match float_of_str s with
            | Ok f => Ok (<["overall_score" := VFloat f]> result)
            | Raise e => Raise e
            end
        | _ => Ok result
        end
        (fun _ => Ok (delete "overall_score" result))
  end.

(** [_normalize_screening_result(result)] *)
Definition _normalize_screening_result `{Libraries} (result : value)
  : outcome value :=
  match result with
  | VDict d =>
      match normalize_overall_score (foldl normalize_object_key d object_keys) with
      | Ok d' => Ok (VDict d')
      | Raise e => Raise e
      end
  | _ => Ok result
  end.

(** The one-character strings of a string, as iterating over it gives. *)
Fixpoint chars (s : string) : list string :=
  match s with
  | EmptyString => []
  | String c s' => String c EmptyString :: chars s'
  end.

(** [s.lower().strip()] is called on every element: it must be a string. *)
Fixpoint strings_of (items : list value) : outcome (list string) :=
  match items with
  | [] => Ok []
  | VStr s :: rest =>
      match strings_of rest with
      | Ok ss => Ok (s :: ss)
      | Raise e => Raise e
      end
  | _ :: _ => Raise (AttributeError "object has no attribute 'lower'")
  end.

(** [[s.lower().strip() for s in skills]] iterates over [skills]: the items
    of a list, the characters of a string, the keys of a mapping; any other
    value is not iterable. *)
Definition iterate `{SetIteration} (skills : value) : outcome (list string) :=
  match skills with
  | VList items => strings_of items
  | VStr s => Ok (chars s)
  | VDict d => Ok (list_of_set (dom d))
  | _ => Raise (TypeError "object is not iterable")
  end.

Definition skill_list (skills : list string) : value := VList (map VStr skills).

(** [screen_resume(parsed_resume, job_title, job_description, weights)], with
    [parsed_resume] the address of the mapping in the store. *)
Definition screen_resume `{SetIteration} `{Libraries} `{Collaborators}
  (h : heap) (parsed_resume : nat) (job_title job_description : string)
  (weights : option value) : outcome value * heap :=
  match h !! parsed_resume with
  | None => (Raise (TypeError "not a mapping"), h)
  | Some d =>
      match iterate (default (VList []) (d !! "skills")) with
      | Raise e => (Raise e, h)
      | Ok skills =>
          let normalized := Utils.normalize_skills skills in
          let d1 := <["skills" := skill_list normalized]> d in
          let expanded :=
            Utils.fuzzy_expand_skills normalized job_description
              Utils.default_threshold in
          let d2 := <["skills" := skill_list expanded]> d1 in
          let h2 := <[parsed_resume := d2]> h in
          match screener_screen_resume d2 job_title job_description weights with
          | Raise e => (Raise e, h2)
          | Ok (ScreeningDict _) =>
              (Raise (AttributeError "'dict' object has no attribute 'overall_score'"), h2)
          | Ok (ScreeningModel dump) =>
              (_normalize_screening_result (VDict dump), h2)
          end
      end
  end.

(** [model_dump] gives a new mapping: it is stored at an unused address. *)
Definition alloc (h : heap) (d : gmap string value) : nat * heap :=
  let a := fresh (dom h) in (a, <[a := d]> h).

(** [parse_resume_from_path(file_path)] *)
Definition parse_resume_from_path `{Libraries} `{Collaborators}
  (fs : filesystem) (h : heap) (file_path : string) : outcome nat * heap :=
  match ResumeExtractor.extract_text_from_file fs file_path with
  | Raise e => (Raise e, h)
  | Ok resume_text =>
      match parser_parse_resume resume_text with
      | Raise e => (Raise e, h)
      | Ok d => let '(a, h') := alloc h d in (Ok a, h')
      end
  end.

(** [parse_resume_from_bytes(file_bytes, filename)] *)
Definition parse_resume_from_bytes `{Libraries} `{Collaborators}
  (env : ResumeExtractor.os_env) (fs : filesystem) (h : heap)
  (file_bytes : bytes) (filename : string) : outcome nat * filesystem * heap :=
  match ResumeExtractor.extract_text_from_bytes env file_bytes filename fs with
  | (Raise e, fs') => (Raise e, fs', h)
  | (Ok resume_text, fs') =>
      match parser_parse_resume resume_text with
      | Raise e => (Raise e, fs', h)
      | Ok d => let '(a, h') := alloc h d in (Ok a, fs', h')
      end
  end.

(** [optimise_resume(parsed_resume, job_title, job_description,
    screening_result)] *)
Definition optimise_resume `{Collaborators} (h : heap) (parsed_resume : nat)
  (job_title job_description : string) (screening_result : value)
  : outcome value :=
  match h !! parsed_resume with
  | None => Raise (TypeError "not a mapping")
  | Some d =>
      match optimizer_generate_suggestions d job_title job_description
              screening_result with
      | Raise e => Raise e
      | Ok dump => Ok (VDict dump)
      end
  end.

(** The mapping a combined workflow returns: [parsed] is the reference to
    the parsed resume, not a copy of it. *)
Record processed := {
  parsed : nat;
  screened : value;
  optimization : value
}.

(** The screening and optimisation steps shared by the two workflows. *)
Definition screen_and_optimise `{SetIteration} `{Libraries} `{Collaborators}
  (h : heap) (parsed : nat) (job_title job_description : string)
  (weights : option value) : outcome processed * heap :=
  match screen_resume h parsed job_title job_description weights with
  | (Raise e, h') => (Raise e, h')
  | (Ok screened, h') =>
      match optimise_resume h' parsed job_title job_description screened with
      | Raise e => (Raise e, h')
      | Ok optimization =>
          (Ok {| parsed := parsed; screened := screened;
                 optimization := optimization |}, h')
      end
  end.

(** [process_resume_from_path(file_path, job_title, job_description,
    weights)] *)
Definition process_resume_from_path `{SetIteration} `{Libraries}
  `{Collaborators} (fs : filesystem) (h : heap) (file_path : string)
  (job_title job_description : string) (weights : option value)
  : outcome processed * heap :=
  match parse_resume_from_path fs h file_path with
  | (Raise e, h') => (Raise e, h')
  | (Ok parsed, h') =>
      screen_and_optimise h' parsed job_title job_description weights
  end.

(** [process_resume_from_bytes(file_bytes, filename, job_title,
    job_description, weights)] *)
Definition process_resume_from_bytes `{SetIteration} `{Libraries}
  `{Collaborators} (env : ResumeExtractor.os_env) (fs : filesystem) (h : heap)
  (file_bytes : bytes) (filename : string)
  (job_title job_description : string) (weights : option value)
  : outcome processed * filesystem * heap :=
  match parse_resume_from_bytes env fs h file_bytes filename with
  | (Raise e, fs', h') => (Raise e, fs', h')
  | (Ok parsed, fs', h') =>
      let '(r, h'') :=
        screen_and_optimise h' parsed job_title job_description weights in
      (r, fs', h'')
  end.

End ResumeProcessor.

(** ** src/app.py: the upload endpoints *)

(** [str(e)]: the message the exception was raised with. *)
Definition message (e : exn) : string :=
  match e with
  | FileNotFoundError msg => msg
  | ValueError msg => msg
  | TypeError msg => msg
  | AttributeError msg => msg
  | OSError msg => msg
  | LibraryError msg => msg
  end.

(** [json.loads(s)]; [None] when it raises [JSONDecodeError]. *)
Class Json := {
  json_loads : string -> option value
}.

Module App.
Import PyStr.

(** An uploaded file: [file.filename] and what [file.read()] gives. *)
Record upload := {
  filename : option string;
  content : bytes
}.

(** The parts of a request the endpoints read: [request.files] and
    [request.form]. *)
Record request := {
  files : gmap string upload;
  form : gmap string string
}.

(** A response: the JSON body and the status code. *)
Definition response : Type := value * nat.

(** [s.endswith(suffix)] *)
Fixpoint endswith (s suffix : string) : bool :=
  String.eqb s suffix ||
  match s with
  | EmptyString => false
  | String _ s' => endswith s' suffix
  end.

(** [file_name.lower().endswith((".pdf", ".docx", ".doc"))] *)
Definition supported_ending (file_name : string) : bool :=
  let lowered := lower file_name in
  endswith lowered ".pdf" || endswith lowered ".docx" || endswith lowered ".doc".

(** [jsonify({"error": msg}), 400] *)
Definition rejected (msg : string) : response :=
  (VDict {[ "error" := VStr msg ]}, 400%nat).

(** The [except Exception as e] branch of an endpoint:
    [jsonify({"success": False, "error": str(e)}), 500]. *)
Definition failed (e : exn) : response :=
  (VDict {[ "success" := VBool false; "error" := VStr (message e) ]}, 500%nat).

(** The mapping behind a reference, as [jsonify] serializes it. *)
Definition deref (h : heap) (a : nat) : value := VDict (default ∅ (h !! a)).

(** [(request.form.get(name) or "").strip()] *)
Definition field (req : request) (name : string) : string :=
  strip (default "" (form req !! name)).

(** [(file.filename or "").strip()] *)
Definition file_name_of (file : upload) : string :=
  strip (default "" (filename file)).

(** The [weights] block: absent or empty gives [None]; a string that is
    not JSON ends the request. *)
Definition weights_of `{Json} (req : request) : option value + response :=
  match form req !! "weights" with
  | None => inl None
  | Some weights_str =>
      if truthy weights_str then
        match json_loads weights_str with
        | Some weights => inl (Some weights)
        | None => inr (rejected "Invalid JSON format for weights")
        end
      else inl None
  end.

(** [parse_resume()], the handler of [/api/parse]. *)
Definition parse_resume `{Libraries} `{Collaborators}
  (env : ResumeExtractor.os_env) (fs : filesystem) (h : heap) (req : request)
  : response * filesystem * heap :=
  match files req !! "file" with
  | None => (rejected "No file provided", fs, h)
  | Some file =>
      let file_name := file_name_of file in
      if negb (truthy file_name) then (rejected "No file selected", fs, h)
      else if negb (supported_ending file_name) then
        (rejected "Invalid file format. Only PDF and DOCX are supported", fs, h)
      else
        let file_bytes := content file in
        match ResumeProcessor.parse_resume_from_bytes env fs h file_bytes
                file_name with
        | (Raise e, fs', h') => (failed e, fs', h')
        | (Ok parsed, fs', h') =>
            ((VDict {[ "success" := VBool true; "data" := deref h' parsed;
                       "cached" := VBool false ]}, 200%nat), fs', h')
        end
  end.

(** [screen_resume()], the handler of [/api/screen]. *)
Definition screen_resume `{SetIteration} `{Libraries} `{Collaborators} `{Json}
  (env : ResumeExtractor.os_env) (fs : filesystem) (h : heap) (req : request)
  : response * filesystem * heap :=
  match files req !! "file" with
  | None => (rejected "No file provided", fs, h)
  | Some file =>
      let file_name := file_name_of file in
      if negb (truthy file_name) then (rejected "No file selected", fs, h)
      else if negb (supported_ending file_name) then
        (rejected "Invalid file format. Only PDF and DOCX are supported", fs, h)
      else
        let job_title := field req "job_title" in
        let job_description := field req "job_description" in
        if negb (truthy job_title) || negb (truthy job_description) then
          (rejected "job_title and job_description are required", fs, h)
        else
          match weights_of req with
          | inr answer => (answer, fs, h)
          | inl weights =>
              let file_bytes := content file in
              match ResumeProcessor.parse_resume_from_bytes env fs h file_bytes
                      file_name with
              | (Raise e, fs', h') => (failed e, fs', h')
              | (Ok parsed, fs', h') =>
                  match ResumeProcessor.screen_resume h' parsed job_title
                          job_description weights with
                  | (Raise e, h'') => (failed e, fs', h'')
                  | (Ok screened, h'') =>
                      ((VDict
                          {[ "success" := VBool true;
                             "data" :=
                               VDict {[ "parsed" := deref h'' parsed;
                                        "screened" := screened ]};
                             "cache_status" :=
                               VDict {[ "parsed_cached" := VBool false;
                                        "screening_cached" := VBool false ]} ]},
                        200%nat), fs', h'')
                  end
              end
          end
  end.

(** [optimize_resume()], the handler of [/api/optimize]. *)
Definition optimize_resume `{SetIteration} `{Libraries} `{Collaborators}
  `{Json} (env : ResumeExtractor.os_env) (fs : filesystem) (h : heap)
  (req : request) : response * filesystem * heap :=
  match files req !! "file" with
  | None => (rejected "No file provided", fs, h)
  | Some file =>
      let file_name := file_name_of file in
      if negb (truthy file_name) then (rejected "No file selected", fs, h)
      else if negb (supported_ending file_name) then
        (rejected "Invalid file format. Only PDF and DOCX are supported", fs, h)
      else
        let file_bytes := content file in
        let job_title := field req "job_title" in
        let job_description := field req "job_description" in
        if negb (truthy job_title) || negb (truthy job_description) then
          (rejected "job_title and job_description are required", fs, h)
        else
          match weights_of req with
          | inr answer => (answer, fs, h)
          | inl weights =>
              match ResumeProcessor.parse_resume_from_bytes env fs h file_bytes
                      file_name with
              | (Raise e, fs', h') => (failed e, fs', h')
              | (Ok parsed, fs', h') =>
                  match ResumeProcessor.screen_resume h' parsed job_title
                          job_description weights with
                  | (Raise e, h'') => (failed e, fs', h'')
                  | (Ok screened, h'') =>
                      match ResumeProcessor.optimise_resume h'' parsed job_title
                              job_description screened with
                      | Raise e => (failed e, fs', h'')
                      | Ok optimization_suggestions =>
                          ((VDict
                              {[ "success" := VBool true;
                                 "data" :=
                                   VDict {[ "parsed" := deref h'' parsed;
                                            "screened" := screened;
                                            "optimization" :=
                                              optimization_suggestions ]};
                                 "cache_status" :=
                                   VDict {[ "parsed_cached" := VBool false;
                                            "screening_cached" := VBool false;
                                            "optimization_cached" := VBool false ]} ]},
                            200%nat), fs', h'')
                      end
                  end
              end
          end
  end.

End App.

(** ** Notions used to state the properties *)

Module Spec.
Import PyStr.

(** The known terms that occur in the lower-cased job description. *)
Definition occurs_in_jd (jd_text : string) (t : string) : Prop :=
  t ∈ Utils.all_known /\ contains t (lower jd_text) = true.

(** [m], with score [q], is a best match of [skill] among [terms]: no term
    scores higher. *)
Definition best_match `{Libraries} (skill : string) (terms : list string)
  (m : string) (q : Q) : Prop :=
  m ∈ terms /\ token_set_ratio skill m = Ok q /\
  forall c q', c ∈ terms -> token_set_ratio skill c = Ok q' -> (q' <= q)%Q.

(** The state of the selection loop of [extractOne]: the cutoff is the
    score of the current result, and 0 before there is one. *)
Definition loop_state (cutoff : Q) (best : option (string * Q * nat)) : Prop :=
  match best with
  | None => (cutoff == 0)%Q
  | Some (_, s, _) => (cutoff == s)%Q /\ (s <= 100)%Q
  end.

(** The scorer returns a score between 0 and 100 on every pair. *)
Definition scorer_total `{Libraries} : Prop :=
  forall a b, exists q, token_set_ratio a b = Ok q /\ (0 <= q)%Q /\ (q <= 100)%Q.

(** The URL a link annotation carries, if it carries one. *)
Definition annotation_target (r : annotation_ref) : option string :=
  match r with
  | AnnotResolves (AnnotDict subtype (Some action)) =>
      if ResumeExtractor.is_link subtype then
        match ResumeExtractor.action_uri action with
        | Some uri =>
            if ResumeExtractor.uri_truthy uri
            then Some (ResumeExtractor.uri_url uri) else None
        | None => None
        end
      else None
  | _ => None
  end.

(** The annotation references of a page, in order. *)
Definition page_annotations (page : pdf_page) : list annotation_ref :=
  match Annots page with
  | None => []
  | Some (AnnotsList l) => l
  | Some (AnnotsSingle r) => [r]
  end.

(** The annotations the scan reaches: those before the first one that is
    not a dictionary. *)
Fixpoint reached (annotations : list annotation_ref) : list annotation_ref :=
  match annotations with
  | [] => []
  | AnnotResolves AnnotOther :: _ => []
  | r :: rest => r :: reached rest
  end.

(** The hyperlink targets of a document, in the order of discovery, with
    repetitions. *)
Definition link_targets (pages : pdf_document) : list string :=
  omap annotation_target (reached (flat_map page_annotations pages)).

(** The body text of a PDF: the page texts joined by newlines. *)
Definition pdf_body (pages : pdf_document) : string :=
  join nl (map (fun page => default "" (page_text page)) pages).

(** The URL block: a blank line, the header, and one line per URL. *)
Definition url_block (urls : list string) : string :=
  nl +:+ nl +:+ "EXTRACTED URLS/LINKS:" +:+ nl
  +:+ String.concat "" (map (fun url => "- " +:+ url +:+ nl) urls).

(** The hyperlink targets of a Word document's relationship table, in
    order, with repetitions: hyperlink relationships whose target is not
    empty and does not begin with [#]. *)
Definition hyperlink_targets (doc : docx_document) : list string :=
  map target_ref
    (List.filter
       (fun rel => contains "hyperlink" (reltype rel)
                   && truthy (target_ref rel)
                   && negb (startswith (target_ref rel) "#"))
       (rels doc)).

(** The coercion of the value of a match field. *)
Definition coerced (val : value) : value :=
  match val with
  | VStr s => VDict {[ "text" := VStr s ]}
  | VList l => VDict {[ "items" := VList l ]}
  | VNone => VDict ∅
  | _ => val
  end.

(** An annotation reference from which the scan takes no URL: it does not
    resolve, or resolves to a dictionary that is no link, has no action,
    has an action that does not resolve to a dictionary, or has no truthy
    [/URI]. *)
Definition carries_no_url (r : annotation_ref) : Prop :=
  r = AnnotDangling \/
  exists subtype action,
    r = AnnotResolves (AnnotDict subtype action) /\
    (ResumeExtractor.is_link subtype = false
     \/ action = None
     \/ action = Some ActionDangling
     \/ action = Some (ActionResolves ActionOther)
     \/ action = Some (ActionResolves (ActionDict None))
     \/ exists uri, action = Some (ActionResolves (ActionDict (Some uri)))
                    /\ ResumeExtractor.uri_truthy uri = false).

(** A page with the given text and annotation list. *)
Definition page_with (text : option string) (annotations : list annotation_ref)
  : pdf_page :=
  {| page_text := text; Annots := Some (AnnotsList annotations) |}.

(** What the score block makes of the value under [overall_score]. *)
Definition score_of `{Libraries} (val : option value) : option value :=
  match val with
  | Some (VStr s) =>
      match float_of_str s with
      | Ok f => Some (VFloat f)
      | Raise _ => None
      end
  | other => other
  end.

(** A value the schema does not accept for a match field: a string, a list
    or [None]. *)
Definition loose (val : value) : Prop :=
  match val with
  | VStr _ | VList _ | VNone => True
  | _ => False
  end.

Definition is_string (val : value) : Prop :=
  match val with
  | VStr _ => True
  | _ => False
  end.

(** The skills [screen_resume] leaves in the mapping: normalized, then
    expanded against the job description with the default threshold. *)
Definition reconciled `{SetIteration} `{Libraries} (skills : list string)
  (job_description : string) : value :=
  ResumeProcessor.skill_list
    (Utils.fuzzy_expand_skills (Utils.normalize_skills skills) job_description
       Utils.default_threshold).

End Spec.

(** ** Concrete libraries, for examples *)

Module Demo.
Import PyStr.

#[export] Instance elements_iteration : SetIteration :=
  {| list_of_set := elements; list_of_set_perm := fun X => reflexivity _ |}.

(** The text after the last occurrence of [c] in [s]. *)
Fixpoint after_last (c : ascii) (s : string) : option string :=
  match s with
  | EmptyString => None
  | String x s' =>
      match after_last c s' with
      | Some r => Some r
      | None => if Ascii.eqb x c then Some s' else None
      end
  end.

(** The suffix of the final component of a path that does not end in a
    slash: from its last dot, unless that dot is its first or last
    character. *)
Definition simple_suffix (path : string) : string :=
  let name := default path (after_last "/" path) in
  match name with
  | EmptyString => ""
  | String _ rest =>
      match after_last "." rest with
      | Some EmptyString => ""
      | Some ext => "." +:+ ext
      | None => ""
      end
  end.

Definition link (url : string) : annotation_ref :=
  AnnotResolves
    (AnnotDict (Some "/Link") (Some (ActionResolves (ActionDict (Some (UriStr url)))))).

(** A one-page PDF with three link annotations, two to the same target. *)
Definition sample_pdf : pdf_document :=
  [ {| page_text := Some "Jane Doe";
       Annots := Some (AnnotsList [ link "https://a.example"; link "https://b.example";
                                    link "https://a.example" ]) |} ].

(** A Word document with one external hyperlink and one anchor. *)
Definition sample_docx : docx_document :=
  {| paragraphs := [Some "Jane Doe"; Some "Engineer"];
     rels :=
       [ {| reltype := "http://schemas.openxmlformats.org/officeDocument/2006/relationships/styles";
            target_ref := "styles.xml" |};
         {| reltype := "http://schemas.openxmlformats.org/officeDocument/2006/relationships/hyperlink";
            target_ref := "https://a.example" |};
         {| reltype := "http://schemas.openxmlformats.org/officeDocument/2006/relationships/hyperlink";
            target_ref := "#top" |} ] |}.

Definition pdf_bytes : bytes := [Byte.x25; Byte.x50; Byte.x44; Byte.x46].
Definition docx_bytes : bytes := [Byte.x50; Byte.x4b].
Definition truncated_bytes : bytes := [Byte.x25; Byte.x50].

Definition bytes_eqb (a b : bytes) : bool := bool_decide (a = b).

(** 7.5 as a binary64 number. *)
Definition seven_and_a_half : spec_float := S754_finite false 15 (-1).

#[export] Instance libraries : Libraries :=
  {| path_suffix := simple_suffix;
     PdfReader := fun content =>
       if bytes_eqb content pdf_bytes then Ok sample_pdf
       else Raise (LibraryError "EOF marker not found");
     Document := fun content =>
       if bytes_eqb content docx_bytes then Ok sample_docx
       else Raise (LibraryError "File is not a zip file");
     token_set_ratio := fun a b =>
       Ok (if String.eqb a b then 100 else 0)%Q;
     float_of_str := fun s =>
       if String.eqb s "7.5" then Ok seven_and_a_half
       else Raise (ValueError "could not convert string to float") |}.

Definition sample_resume : gmap string value :=
  {[ "name" := VStr "Jane Doe";
     "skills" := VList [VStr " MySQL "; VStr "Rust"] ]}.

#[export] Instance collaborators : Collaborators :=
  {| parser_parse_resume := fun _ => Ok sample_resume;
     screener_screen_resume := fun _ _ _ _ =>
       Ok (ScreeningModel {[ "overall_score" := VStr "7.5";
                             "skill_match" := VStr "strong fit" ]});
     optimizer_generate_suggestions := fun _ _ _ _ => Ok ∅ |}.

(** A Word document without hyperlinks, and libraries that read it. *)
Definition plain_docx : docx_document :=
  {| paragraphs := [Some "Jane Doe"; Some "Engineer"];
     rels :=
       [ {| reltype := "http://schemas.openxmlformats.org/officeDocument/2006/relationships/styles";
            target_ref := "styles.xml" |} ] |}.

Definition plain_libraries : Libraries :=
  {| path_suffix := simple_suffix;
     PdfReader := fun _ => Raise (LibraryError "EOF marker not found");
     Document := fun _ => Ok plain_docx;
     token_set_ratio := fun a b => Ok (if String.eqb a b then 100 else 0)%Q;
     float_of_str := fun _ => Raise (ValueError "could not convert string to float") |}.

(** Libraries whose scorer gives 100 when one string occurs in the other
    and 0 otherwise. *)
Definition fuzzy_libraries : Libraries :=
  {| path_suffix := simple_suffix;
     PdfReader := fun _ => Raise (LibraryError "EOF marker not found");
     Document := fun _ => Raise (LibraryError "File is not a zip file");
     token_set_ratio := fun a b =>
       Ok (if contains b a || contains a b then 100 else 0)%Q;
     float_of_str := fun _ => Raise (ValueError "could not convert string to float") |}.


#[export] Instance json : Json := {| json_loads := fun _ => None |}.

(** An upload whose whole name is [.pdf]. *)
Definition hidden_pdf_request : App.request :=
  {| App.files :=
       {[ "file" := {| App.filename := Some ".pdf"; App.content := pdf_bytes |} ]};
     App.form := ∅ |}.

(** A screening request for [sample_pdf]. *)
Definition screen_request : App.request :=
  {| App.files :=
       {[ "file" := {| App.filename := Some " cv.PDF ";
                       App.content := pdf_bytes |} ]};
     App.form :=
       {[ "job_title" := " Engineer";
          "job_description" := "Requires strong SQL/MySQL experience" ]} |}.

Definition env : ResumeExtractor.os_env :=
  {| ResumeExtractor.tmp_name := "/tmp/tmpab12cd.pdf";
     ResumeExtractor.create_fails := false;
     ResumeExtractor.write_fails := false;
     ResumeExtractor.remove_fails := false |}.

End Demo.

(** * Properties *)

Section StringFacts.
Import PyStr.

Lemma lower_char_idem c : lower_char (lower_char c) = lower_char c.
Proof. destruct c as [[] [] [] [] [] [] [] []]; reflexivity. Qed.

Lemma is_space_lower_char c : is_space (lower_char c) = is_space c.
Proof. destruct c as [[] [] [] [] [] [] [] []]; reflexivity. Qed.

Lemma lower_idem s : lower (lower s) = lower s.
Proof. induction s as [|c s IH]; simpl; [done|]. by rewrite lower_char_idem, IH. Qed.

Lemma lower_lstrip s : lower (lstrip s) = lstrip (lower s).
Proof.
  induction s as [|c s IH]; simpl; [done|].
  rewrite is_space_lower_char. by destruct (is_space c).
Qed.

Lemma lower_eqb_empty s : String.eqb (lower s) "" = String.eqb s "".
Proof. by destruct s. Qed.

Lemma lower_rstrip s : lower (rstrip s) = rstrip (lower s).
Proof.
  induction s as [|c s IH]; simpl; [done|].
  rewrite is_space_lower_char, <- IH, lower_eqb_empty.
  by destruct (is_space c && String.eqb (rstrip s) "").
Qed.

Lemma lower_strip s : lower (strip s) = strip (lower s).
Proof. unfold strip. by rewrite lower_rstrip, lower_lstrip. Qed.

Lemma rstrip_idem s : rstrip (rstrip s) = rstrip s.
Proof.
  induction s as [|c s IH]; simpl; [done|].
  destruct (is_space c && String.eqb (rstrip s) "") eqn:E; simpl; [done|].
  by rewrite IH, E.
Qed.

Lemma lstrip_no_leading_space s : no_leading_space (lstrip s).
Proof.
  induction s as [|c s IH]; simpl; [done|].
  destruct (is_space c) eqn:E; [done|]. exact E.
Qed.

Lemma lstrip_fixed s : no_leading_space s -> lstrip s = s.
Proof. destruct s as [|c s]; simpl; [done|]. by intros ->. Qed.

Lemma rstrip_no_leading_space s :
  no_leading_space s -> no_leading_space (rstrip s).
Proof.
  destruct s as [|c s]; simpl; [done|]. intros E. rewrite E. exact E.
Qed.

Lemma strip_idem s : strip (strip s) = strip s.
Proof.
  unfold strip.
  rewrite (lstrip_fixed (rstrip (lstrip s))).
  - apply rstrip_idem.
  - apply rstrip_no_leading_space, lstrip_no_leading_space.
Qed.

(** Cleaning a token ([s.lower().strip()]) twice is cleaning it once. *)
Lemma clean_idem s : strip (lower (strip (lower s))) = strip (lower s).
Proof. by rewrite <- lower_strip, strip_idem, lower_strip, lower_idem. Qed.

End StringFacts.

(** ** Skill normalization *)

Section Normalization.
Import PyStr Utils.

Lemma in_list_true x xs : in_list x xs = true <-> x ∈ xs.
Proof.
  unfold in_list. rewrite existsb_exists. split.
  - intros (y & Hy & E). apply String.eqb_eq in E. subst.
    by apply list_elem_of_In.
  - intros Hx. exists x. split; [by apply list_elem_of_In|apply String.eqb_refl].
Qed.

Lemma in_list_false x xs : in_list x xs = false <-> x ∉ xs.
Proof.
  rewrite <- in_list_true. destruct (in_list x xs); split; congruence.
Qed.

(** A token that no entry of the table matches is not found. *)
Lemma first_match_none table token :
  (forall c V, (c, V) ∈ table -> token <> c /\ token ∉ V) ->
  first_match table token = None.
Proof.
  induction table as [|[c V] table IH]; intros Hno; simpl; [done|].
  destruct (Hno c V) as [Hc HV]; [left|].
  apply String.eqb_neq in Hc. apply in_list_false in HV. rewrite Hc, HV. simpl.
  apply IH. intros c' V' Hin. apply Hno. by right.
Qed.

(** What is found is a canonical name of the table. *)
Lemma first_match_some table token c :
  first_match table token = Some c -> c ∈ map fst table.
Proof.
  induction table as [|[c' V] table IH]; simpl; [done|].
  destruct (String.eqb token c' || in_list token V).
  - intros [= ->]. left.
  - intros Hc. right. by apply IH.
Qed.

(** Every canonical name and every variant folds to its canonical name:
    no term of the table is claimed by an earlier entry. *)
Lemma lookup_canonical_table token c V :
  (c, V) ∈ SKILL_SYNONYMS -> token = c \/ token ∈ V ->
  lookup_canonical token = c.
Proof.
  unfold SKILL_SYNONYMS. intros Hin Htok.
  repeat match goal with
  | H : _ ∈ _ :: _ |- _ => apply elem_of_cons in H; destruct H as [H|H]
  | H : _ ∈ [] |- _ => by apply elem_of_nil in H
  | H : (_, _) = (_, _) |- _ => injection H as -> ->
  | H : _ \/ _ |- _ => destruct H as [H|H]
  end; subst; reflexivity.
Qed.

(** The variants of the table are lower-case and trimmed. *)
Lemma variant_clean c V v :
  (c, V) ∈ SKILL_SYNONYMS -> v ∈ V -> strip (lower v) = v.
Proof.
  unfold SKILL_SYNONYMS. intros Hin Hv.
  repeat match goal with
  | H : _ ∈ _ :: _ |- _ => apply elem_of_cons in H; destruct H as [H|H]
  | H : _ ∈ [] |- _ => by apply elem_of_nil in H
  | H : (_, _) = (_, _) |- _ => injection H as -> ->
  end; subst; reflexivity.
Qed.

Lemma lookup_canonical_unknown token :
  (forall c V, (c, V) ∈ SKILL_SYNONYMS -> token <> c /\ token ∉ V) ->
  lookup_canonical token = token.
Proof. intros H. unfold lookup_canonical. by rewrite first_match_none. Qed.

(** A canonical name is clean and folds to itself. *)
Lemma canonical_fixed c :
  c ∈ map fst SKILL_SYNONYMS ->
  strip (lower c) = c /\ lookup_canonical c = c.
Proof.
  simpl. intros Hin.
  repeat match goal with
  | H : _ ∈ _ :: _ |- _ => apply elem_of_cons in H; destruct H as [H|H]
  | H : _ ∈ [] |- _ => by apply elem_of_nil in H
  end; subst; split; reflexivity.
Qed.

Lemma normalize_step_add normalized skill :
  normalize_step normalized skill = normalized ∪ {[ lookup_canonical skill ]}.
Proof.
  unfold normalize_step, lookup_canonical.
  by destruct (first_match SKILL_SYNONYMS skill).
Qed.

Lemma elem_of_foldl_step (acc : gset string) (l : list string) x :
  x ∈ foldl normalize_step acc l <->
  x ∈ acc \/ exists s, s ∈ l /\ x = lookup_canonical s.
Proof.
  revert acc. induction l as [|s l IH]; intros acc; simpl.
  - split; [by left|]. intros [?|(s & Hs & _)]; [done|]. by apply elem_of_nil in Hs.
  - rewrite IH, normalize_step_add, elem_of_union, elem_of_singleton. split.
    + intros [[?| ->]|(s' & Hs' & ->)]; [by left|right..].
      * exists s. split; [left|done].
      * exists s'. split; [by right|done].
    + intros [?|(s' & Hs' & ->)]; [by left; left|].
      apply elem_of_cons in Hs' as [->|Hs']; [by left; right|].
      right. by exists s'.
Qed.

(** The elements of the normalized set: the fold of each cleaned input. *)
Lemma elem_of_normalized_set skills x :
  x ∈ normalized_set skills <->
  exists s, s ∈ skills /\ x = lookup_canonical (strip (lower s)).
Proof.
  unfold normalized_set. rewrite elem_of_foldl_step. split.
  - intros [H|(t & Ht & ->)]; [by apply not_elem_of_empty in H|].
    apply list_elem_of_fmap in Ht as (s & -> & Hs). by exists s.
  - intros (s & Hs & ->). right. exists (strip (lower s)). split; [|done].
    apply list_elem_of_fmap. by exists s.
Qed.

Lemma elem_of_list_of_set `{SetIteration} (X : gset string) x :
  x ∈ list_of_set X <-> x ∈ X.
Proof. by rewrite (list_of_set_perm X), elem_of_elements. Qed.

Lemma NoDup_list_of_set `{SetIteration} (X : gset string) :
  NoDup (list_of_set X).
Proof. rewrite (list_of_set_perm X). apply NoDup_elements. Qed.

Lemma list_to_set_list_of_set `{SetIteration} (X : gset string) :
  list_to_set (list_of_set X) = X.
Proof.
  apply set_eq. intros x. by rewrite elem_of_list_to_set, elem_of_list_of_set.
Qed.

(** Cleaning and folding a token twice is doing it once. *)
Lemma fold_clean_idem s :
  lookup_canonical (strip (lower (lookup_canonical (strip (lower s)))))
  = lookup_canonical (strip (lower s)).
Proof.
  unfold lookup_canonical at 2 3.
  destruct (first_match SKILL_SYNONYMS (strip (lower s))) as [c|] eqn:E.
  - apply first_match_some in E. destruct (canonical_fixed c E) as [-> ->]. done.
  - rewrite clean_idem. unfold lookup_canonical. by rewrite E.
Qed.

(** C5.  Normalization lower-cases and trims each entry and folds it with
    [lookup_canonical]: the result holds exactly the folds of the cleaned
    entries, each once.  A token that is a canonical name or one of its
    variants folds to that canonical name; any other token folds to
    itself, so no skill is dropped. *)
Theorem normalize_skills_folds `{SetIteration} (skills : list string) :
  (forall x, x ∈ normalize_skills skills <->
             exists s, s ∈ skills /\ x = lookup_canonical (strip (lower s)))
  /\ NoDup (normalize_skills skills)
  /\ (forall token c V, (c, V) ∈ SKILL_SYNONYMS -> token = c \/ token ∈ V ->
        lookup_canonical token = c)
  /\ (forall token,
        (forall c V, (c, V) ∈ SKILL_SYNONYMS -> token <> c /\ token ∉ V) ->
        lookup_canonical token = token)
  /\ (forall c V v, (c, V) ∈ SKILL_SYNONYMS -> v ∈ V ->
        normalize_skills [v] = [c] /\ normalize_skills [c] = [c]).
Proof.
  split; [|split; [|split; [|split]]].
  - intros x. unfold normalize_skills.
    by rewrite elem_of_list_of_set, elem_of_normalized_set.
  - apply NoDup_list_of_set.
  - apply lookup_canonical_table.
  - apply lookup_canonical_unknown.
  - intros c V v Hin Hv.
    assert (Hc : c ∈ map fst SKILL_SYNONYMS).
    { apply list_elem_of_fmap. by exists (c, V). }
    assert (Hone : forall t, lookup_canonical (strip (lower t)) = c ->
                             normalize_skills [t] = [c]).
    { intros t Ht. unfold normalize_skills, normalized_set. simpl.
      rewrite normalize_step_add, Ht, (left_id_L ∅ (∪)).
      apply Permutation_singleton_r.
      by rewrite (list_of_set_perm {[ c ]}), elements_singleton. }
    split; apply Hone.
    + rewrite (variant_clean c V v Hin Hv).
      apply (lookup_canonical_table v c V Hin). by right.
    + destruct (canonical_fixed c Hc) as [-> ->]. done.
Qed.

(** The set built by normalization is the same for two lists with the same
    elements. *)
Lemma normalized_set_of_normalized (l skills : list string) :
  (forall x, x ∈ l <-> x ∈ normalized_set skills) ->
  normalized_set l = normalized_set skills.
Proof.
  intros Hl. apply set_eq. intros x. rewrite !elem_of_normalized_set. split.
  - intros (y & Hy & ->). apply Hl, elem_of_normalized_set in Hy as (s & Hs & ->).
    exists s. by rewrite fold_clean_idem.
  - intros (s & Hs & ->). exists (lookup_canonical (strip (lower s))).
    split; [|by rewrite fold_clean_idem].
    apply Hl, elem_of_normalized_set. by exists s.
Qed.

(** C9.  Normalization is idempotent on skill sets: normalizing the list
    that normalization returned gives the same set, in whatever order the
    runtime enumerated either set. *)
Theorem normalize_skills_idempotent (first second once : SetIteration)
  (skills : list string) :
  list_to_set (@normalize_skills second (@normalize_skills first skills))
  =@{gset string} list_to_set (@normalize_skills once skills).
Proof.
  unfold normalize_skills. rewrite !list_to_set_list_of_set.
  apply normalized_set_of_normalized. intros x. apply elem_of_list_of_set.
Qed.

End Normalization.

(** ** Implied-skill expansion *)

Section Expansion.
Import PyStr Utils Spec.
Context `{SetIteration} `{Libraries}.

Lemma elem_of_jd_terms jd_text t :
  t ∈ jd_terms_of jd_text <-> occurs_in_jd jd_text t.
Proof.
  unfold jd_terms_of, occurs_in_jd.
  rewrite list_elem_of_In, filter_In, <- list_elem_of_In, elem_of_list_of_set.
  done.
Qed.

(** What the loop returns is the current result or one of the choices. *)
Lemma extractOne_from_choice query choices key cutoff best m s k :
  extractOne_from query choices key cutoff best = Ok (Some (m, s, k)) ->
  best = Some (m, s, k) \/ m ∈ choices.
Proof.
  revert key cutoff best.
  induction choices as [|choice rest IH]; intros key cutoff best; simpl.
  - intros [= ->]. by left.
  - destruct (token_set_ratio query choice) as [score|]; [|done].
    destruct (Qle_bool cutoff score && improves score best);
      destruct (Qeq_bool score 100).
    + intros [= -> _ _]. right. left.
    + intros Hr. apply IH in Hr as [[= -> _ _]|Hm]; right; [left|by right].
    + intros [= ->]. by left.
    + intros Hr. apply IH in Hr as [?|?]; [by left|by right; right].
Qed.

(** The loop returns a choice that no other choice outscores. *)
Lemma extractOne_from_best query choices key cutoff best r :
  (forall c q, c ∈ choices -> token_set_ratio query c = Ok q ->
               (0 <= q)%Q /\ (q <= 100)%Q) ->
  loop_state cutoff best ->
  extractOne_from query choices key cutoff best = Ok r ->
  match r with
  | None => best = None /\ choices = []
  | Some (m, s, k) =>
      (best = Some (m, s, k) \/ (m ∈ choices /\ token_set_ratio query m = Ok s))
      /\ (forall c q, c ∈ choices -> token_set_ratio query c = Ok q -> (q <= s)%Q)
      /\ (forall m0 s0 k0, best = Some (m0, s0, k0) -> (s0 <= s)%Q)
      /\ (s <= 100)%Q
  end.
Proof.
  revert key cutoff best r.
  induction choices as [|choice rest IH]; intros key cutoff best r Hrange Hst; simpl.
  - intros [= <-]. destruct best as [[[m s] k]|]; [|done].
    destruct Hst as [_ Hs]. split; [by left|]. split; [|split; [|done]].
    + intros c q Hc. by apply elem_of_nil in Hc.
    + intros m0 s0 k0 [= _ -> _]. apply Qle_refl.
  - destruct (token_set_ratio query choice) as [score|] eqn:Escore; [|done].
    destruct (Hrange choice score) as [Hlo Hhi]; [left|done|].
    assert (Hrest : forall c q, c ∈ rest -> token_set_ratio query c = Ok q ->
                                (0 <= q)%Q /\ (q <= 100)%Q).
    { intros c q Hc. apply Hrange. by right. }
    assert (Hnew : forall r',
      extractOne_from query rest (S key) score (Some (choice, score, key)) = Ok r' ->
      (forall s0, (match best with Some (_, s0', _) => s0' = s0 | None => False end) ->
                  (s0 <= score)%Q) ->
      match r' with
      | None => best = None /\ choice :: rest = []
      | Some (m, s, k) =>
          (best = Some (m, s, k)
           \/ (m ∈ choice :: rest /\ token_set_ratio query m = Ok s))
          /\ (forall c q, c ∈ choice :: rest -> token_set_ratio query c = Ok q ->
                          (q <= s)%Q)
          /\ (forall m0 s0 k0, best = Some (m0, s0, k0) -> (s0 <= s)%Q)
          /\ (s <= 100)%Q
      end).
    { intros r' Hr' Hbest.
      apply IH in Hr'; [|done|by split; [reflexivity|]].
      destruct r' as [[[m s] k]|]; [|by destruct Hr'].
      destruct Hr' as (Hm & Hmax & Hprev & Hs).
      specialize (Hprev choice score key eq_refl).
      split; [|split; [|split; [|done]]].
      - right. destruct Hm as [[= <- <- _]|[Hm Hsc]]; [by split; [left|]|].
        split; [by right|done].
      - intros c q Hc Hq. apply elem_of_cons in Hc as [->|Hc]; [|by eapply Hmax].
        rewrite Escore in Hq. by injection Hq as <-.
      - intros m0 s0 k0 ->. eapply Qle_trans; [|exact Hprev]. by apply Hbest. }
    assert (Hstop : forall s : Q,
      (score == 100)%Q -> (score <= s)%Q ->
      forall c q, c ∈ choice :: rest -> token_set_ratio query c = Ok q -> (q <= s)%Q).
    { intros s Hfull Hs c q Hc Hq.
      eapply Qle_trans; [|exact Hs].
      apply elem_of_cons in Hc as [->|Hc].
      - rewrite Escore in Hq. injection Hq as <-. apply Qle_refl.
      - rewrite Hfull. by eapply Hrest. }
    destruct (Qle_bool cutoff score && improves score best) eqn:Etake.
    + assert (Hbest : forall s0,
        (match best with Some (_, s0', _) => s0' = s0 | None => False end) ->
        (s0 <= score)%Q).
      { intros s0. destruct best as [[[m0 s0'] k0]|]; [|done]. intros <-.
        apply andb_true_iff in Etake as [_ Himp]. simpl in Himp.
        apply negb_true_iff in Himp.
        destruct (Qlt_le_dec s0' score) as [Hlt|Hle]; [by apply Qlt_le_weak|].
        apply Qle_bool_iff in Hle. congruence. }
      destruct (Qeq_bool score 100) eqn:Estop; [|by intros Hr; apply Hnew].
      apply Qeq_bool_iff in Estop.
      intros [= <-]. split; [|split; [|split; [|done]]].
      * right. by split; [left|].
      * apply (Hstop score); [done|apply Qle_refl].
      * intros m0 s0 k0 ->. by apply Hbest.
    + assert (Hkeep : exists m0 s0 k0,
        best = Some (m0, s0, k0) /\ (score <= s0)%Q).
      { destruct best as [[[m0 s0] k0]|]; simpl in *.
        - exists m0, s0, k0. split; [done|]. destruct Hst as [Hcut _].
          apply andb_false_iff in Etake as [Hle|Himp].
          + destruct (Qlt_le_dec score s0) as [Hlt|Hge]; [by apply Qlt_le_weak|].
            rewrite <- Hcut in Hge. apply Qle_bool_iff in Hge. congruence.
          + apply negb_false_iff in Himp. by apply Qle_bool_iff.
        - rewrite andb_true_r in Etake. rewrite Hst in Etake.
          apply Qle_bool_iff in Hlo. congruence. }
      destruct Hkeep as (m0 & s0 & k0 & -> & Hle). destruct Hst as [Hcut Hs0].
      destruct (Qeq_bool score 100) eqn:Estop.
      * apply Qeq_bool_iff in Estop.
        intros [= <-]. split; [by left|]. split; [|split; [|done]].
        -- apply (Hstop s0); done.
        -- intros ? ? ? [= _ -> _]. apply Qle_refl.
      * intros Hr. apply IH in Hr; [|done|by split].
        destruct r as [[[m s] k]|]; [|by destruct Hr].
        destruct Hr as (Hm & Hmax & Hprev & Hs).
        specialize (Hprev m0 s0 k0 eq_refl).
        split; [|split; [|split; [|done]]].
        -- destruct Hm as [?|[Hm Hsc]]; [by left|right].
           split; [by right|done].
        -- intros c q Hc Hq. apply elem_of_cons in Hc as [->|Hc]; [|by eapply Hmax].
           rewrite Escore in Hq. injection Hq as <-. by eapply Qle_trans.
        -- intros ? ? ? [= _ -> _]. done.
Qed.

(** With a scorer that never fails, the loop returns. *)
Lemma extractOne_from_returns query choices key cutoff best :
  (forall c, c ∈ choices -> exists q, token_set_ratio query c = Ok q) ->
  exists r, extractOne_from query choices key cutoff best = Ok r.
Proof.
  revert key cutoff best.
  induction choices as [|choice rest IH]; intros key cutoff best Htotal; simpl.
  - by eexists.
  - destruct (Htotal choice) as [score ->]; [left|].
    destruct (Qeq_bool score 100); [by eexists|].
    apply IH. intros c Hc. apply Htotal. by right.
Qed.

(** [extractOne] returns a best match. *)
Lemma extractOne_best query choices m s k :
  scorer_total ->
  extractOne query choices = Ok (Some (m, s, k)) ->
  best_match query choices m s.
Proof.
  intros Htotal Hr. unfold extractOne in Hr.
  apply extractOne_from_best in Hr.
  - destruct Hr as ([?|[Hm Hs]] & Hmax & _); [done|]. by split; [|split].
  - intros c q _ Hq. destruct (Htotal query c) as (q' & Hq' & ?).
    rewrite Hq in Hq'. by injection Hq' as <-.
  - simpl. reflexivity.
Qed.

(** On a non-empty list of choices, [extractOne] finds a match. *)
Lemma extractOne_finds query choices :
  scorer_total -> choices <> [] ->
  exists m s k, extractOne query choices = Ok (Some (m, s, k)).
Proof.
  intros Htotal Hne.
  destruct (extractOne_from_returns query choices 0%nat 0%Q None) as [r Hr].
  { intros c _. destruct (Htotal query c) as (q & Hq & _). by exists q. }
  destruct r as [[[m s] k]|]; [by exists m, s, k|].
  apply extractOne_from_best in Hr as [_ ?]; [done| |by simpl].
  intros c q _ Hq. destruct (Htotal query c) as (q' & Hq' & ?).
  rewrite Hq in Hq'. by injection Hq' as <-.
Qed.

(** The universe of known terms: every canonical name and every variant
    of the synonym table, and nothing else. *)
Lemma elem_of_all_known t :
  t ∈ all_known <->
  exists c V, (c, V) ∈ SKILL_SYNONYMS /\ (t = c \/ t ∈ V).
Proof.
  unfold all_known. rewrite elem_of_union, !elem_of_list_to_set. split.
  - intros [Hv|Hc].
    + apply list_elem_of_In, in_concat in Hv as (V & HV & Ht).
      apply in_map_iff in HV as ([c V'] & <- & Hin).
      exists c, V'. split; [by apply list_elem_of_In|].
      right. by apply list_elem_of_In.
    + apply list_elem_of_fmap in Hc as ([c V] & -> & Hin).
      exists c, V. split; [done|by left].
  - intros (c & V & Hin & [->|Ht]).
    + right. apply list_elem_of_fmap. by exists (c, V).
    + left. apply list_elem_of_In, in_concat. exists V.
      split; [|by apply list_elem_of_In].
      apply in_map_iff. exists (c, V). split; [done|by apply list_elem_of_In].
Qed.

(** What the loop body appends for a skill. *)
Lemma elem_of_matched_for terms threshold skill x :
  x ∈ matched_for terms threshold skill <->
  exists q k, extractOne skill terms = Ok (Some (x, q, k)) /\ (threshold <= q)%Q.
Proof.
  unfold matched_for.
  destruct (extractOne skill terms) as [[[[m s] k]|]|] eqn:E.
  - destruct (Qle_bool threshold s) eqn:Eq.
    + apply Qle_bool_iff in Eq. rewrite list_elem_of_singleton. split.
      * intros ->. by exists s, k.
      * by intros (q & k' & [= -> _ _] & _).
    + split; [by intros ?%elem_of_nil|].
      intros (q & k' & [= _ <- _] & Hq). apply Qle_bool_iff in Hq. congruence.
  - split; [by intros ?%elem_of_nil|]. by intros (? & ? & ? & _).
  - split; [by intros ?%elem_of_nil|]. by intros (? & ? & ? & _).
Qed.

(** The two early returns of [fuzzy_expand_skills]. *)
Lemma fuzzy_expand_skills_unchanged skills jd_text threshold :
  skills = [] \/ jd_text = "" \/ (forall t, ~ occurs_in_jd jd_text t) ->
  fuzzy_expand_skills skills jd_text threshold = skills.
Proof.
  unfold fuzzy_expand_skills. intros [->|[->|Hno]]; [done| |].
  - simpl. by rewrite orb_true_r.
  - destruct (bool_decide (skills = []) || negb (truthy jd_text)); [done|].
    rewrite bool_decide_eq_true_2; [done|].
    destruct (jd_terms_of jd_text) as [|t ts] eqn:E; [done|].
    destruct (Hno t). apply elem_of_jd_terms. rewrite E. left.
Qed.

(** Past the early returns, the result is the set of the skills and the
    matches. *)
Lemma elem_of_fuzzy_expand_skills skills jd_text threshold x :
  skills <> [] -> jd_text <> "" -> jd_terms_of jd_text <> [] ->
  x ∈ fuzzy_expand_skills skills jd_text threshold <->
  x ∈ skills \/
  exists skill q k, skill ∈ skills
    /\ extractOne skill (jd_terms_of jd_text) = Ok (Some (x, q, k))
    /\ (threshold <= q)%Q.
Proof.
  intros Hs Hjd Hterms. unfold fuzzy_expand_skills.
  rewrite (bool_decide_eq_false_2 _ Hs), (bool_decide_eq_false_2 _ Hterms).
  assert (truthy jd_text = true) as ->.
  { unfold truthy. apply negb_true_iff, String.eqb_neq. done. }
  simpl. rewrite elem_of_list_of_set, elem_of_list_to_set, elem_of_app.
  apply or_iff_compat_l.
  rewrite list_elem_of_In, in_flat_map. split.
  - intros (skill & Hskill & Hx). apply list_elem_of_In in Hskill, Hx.
    apply elem_of_matched_for in Hx as (q & k & ? & ?). by exists skill, q, k.
  - intros (skill & q & k & Hskill & Hx & Hq). exists skill.
    rewrite <- !list_elem_of_In. split; [done|].
    apply elem_of_matched_for. by exists q, k.
Qed.

(** C3.  Expansion returns the skills unchanged when they are empty, the
    job description is empty or no known term occurs in its lower-cased
    text.  Otherwise it returns, without duplicates, the skills together
    with, for each skill, a best-scoring term among the known terms that
    occur in the job description, when that best score reaches the
    threshold.  In every case the result contains the skills, and what it
    adds is a known term occurring in the lower-cased job description.
    The known terms are the canonical names and the variants of the
    synonym table, and nothing else. *)
Theorem fuzzy_expand_skills_expands skills jd_text threshold :
  let expanded := fuzzy_expand_skills skills jd_text threshold in
  let terms := jd_terms_of jd_text in
  (skills = [] \/ jd_text = "" \/ (forall t, ~ occurs_in_jd jd_text t) ->
   expanded = skills)
  /\ (forall t, t ∈ terms <-> occurs_in_jd jd_text t)
  /\ (skills <> [] -> jd_text <> "" -> (exists t, occurs_in_jd jd_text t) ->
      scorer_total ->
      NoDup expanded
      /\ (forall x, x ∈ expanded ->
            x ∈ skills \/
            exists skill q, skill ∈ skills /\ best_match skill terms x q
                            /\ (threshold <= q)%Q)
      /\ (forall skill, skill ∈ skills ->
            exists m q, best_match skill terms m q
                        /\ ((threshold <= q)%Q -> m ∈ expanded)))
  /\ (forall x, x ∈ skills -> x ∈ expanded)
  /\ (forall x, x ∈ expanded -> x ∉ skills -> occurs_in_jd jd_text x)
  /\ (forall t, t ∈ all_known <->
                exists c V, (c, V) ∈ SKILL_SYNONYMS /\ (t = c \/ t ∈ V)).
Proof.
  intros expanded terms.
  assert (Hcases : (skills = [] \/ jd_text = "" \/ terms = [])
                   \/ (skills <> [] /\ jd_text <> "" /\ terms <> [])).
  { destruct skills; [by left; left|]. destruct jd_text; [by left; right; left|].
    destruct terms eqn:E; [by left; right; right|]. by right. }
  split; [apply fuzzy_expand_skills_unchanged|].
  split; [apply elem_of_jd_terms|].
  split; [|split; [|split; [|apply elem_of_all_known]]].
  - intros Hs Hjd [t Ht] Htotal.
    assert (Hterms : terms <> []).
    { apply elem_of_jd_terms in Ht. intros E. fold terms in Ht. rewrite E in Ht.
      by apply elem_of_nil in Ht. }
    split; [|split].
    + unfold expanded, fuzzy_expand_skills.
      rewrite (bool_decide_eq_false_2 _ Hs).
      destruct (negb (truthy jd_text)) eqn:Et.
      { unfold truthy in Et. rewrite negb_involutive in Et.
        by apply String.eqb_eq in Et. }
      simpl. fold terms. rewrite (bool_decide_eq_false_2 _ Hterms).
      apply NoDup_list_of_set.
    + intros x Hx. apply elem_of_fuzzy_expand_skills in Hx; [|done..].
      destruct Hx as [?|(skill & q & k & Hskill & Hx & Hq)]; [by left|right].
      exists skill, q. split; [done|]. split; [|done].
      by eapply extractOne_best.
    + intros skill Hskill.
      destruct (extractOne_finds skill terms Htotal Hterms) as (m & s & k & E).
      exists m, s. split; [by eapply extractOne_best|].
      intros Hq. apply elem_of_fuzzy_expand_skills; [done..|].
      right. by exists skill, s, k.
  - intros x Hx. destruct Hcases as [Hcase|(Hs & Hjd & Hterms)].
    + unfold expanded. rewrite fuzzy_expand_skills_unchanged; [done|].
      destruct Hcase as [?|[?|E]]; [by left|by right; left|right; right].
      intros t Ht%elem_of_jd_terms. fold terms in Ht. rewrite E in Ht.
      by apply elem_of_nil in Ht.
    + apply elem_of_fuzzy_expand_skills; [done..|]. by left.
  - intros x Hx Hnot. destruct Hcases as [Hcase|(Hs & Hjd & Hterms)].
    + unfold expanded in Hx. rewrite fuzzy_expand_skills_unchanged in Hx; [done|].
      destruct Hcase as [?|[?|E]]; [by left|by right; left|right; right].
      intros t Ht%elem_of_jd_terms. fold terms in Ht. rewrite E in Ht.
      by apply elem_of_nil in Ht.
    + apply elem_of_fuzzy_expand_skills in Hx; [|done..].
      destruct Hx as [?|(skill & q & k & _ & Hx & _)]; [done|].
      apply elem_of_jd_terms.
      by apply extractOne_from_choice in Hx as [?|?].
Qed.

End Expansion.

(** ** URL collection *)

Section Urls.
Import PyStr ResumeExtractor Spec.

Lemma append_cons x (a b : string) : String x a +:+ b = String x (a +:+ b).
Proof. reflexivity. Qed.

Lemma append_assoc (a b c : string) : (a +:+ b) +:+ c = a +:+ (b +:+ c).
Proof. induction a as [|x a IH]; [done|]. by rewrite !append_cons, IH. Qed.

Lemma append_empty_r (a : string) : a +:+ "" = a.
Proof. induction a as [|x a IH]; [done|]. by rewrite append_cons, IH. Qed.

Lemma add_url_spec urls url :
  add_url urls url = if decide (url ∈ urls) then urls else urls ++ [url].
Proof.
  unfold add_url. destruct (in_list url urls) eqn:E.
  - apply in_list_true in E. by rewrite decide_True.
  - apply in_list_false in E. by rewrite decide_False.
Qed.

(** Collecting only appends. *)
Lemma collect_extends (acc l : list string) :
  exists tail, foldl add_url acc l = acc ++ tail.
Proof.
  revert acc. induction l as [|u l IH]; intros acc; simpl.
  - exists []. by rewrite app_nil_r.
  - destruct (IH (add_url acc u)) as [tail ->]. rewrite add_url_spec.
    destruct (decide (u ∈ acc)); [by exists tail|].
    exists (u :: tail). by rewrite <- app_assoc.
Qed.

Lemma elem_of_collect (acc l : list string) x :
  x ∈ foldl add_url acc l <-> x ∈ acc \/ x ∈ l.
Proof.
  revert acc. induction l as [|u l IH]; intros acc; simpl.
  - rewrite elem_of_nil. tauto.
  - rewrite IH, add_url_spec, elem_of_cons.
    destruct (decide (u ∈ acc)).
    + split; [tauto|]. intros [?|[->|?]]; tauto.
    + rewrite elem_of_app, list_elem_of_singleton. tauto.
Qed.

Lemma NoDup_collect (acc l : list string) :
  NoDup acc -> NoDup (foldl add_url acc l).
Proof.
  revert acc. induction l as [|u l IH]; intros acc Hacc; simpl; [done|].
  apply IH. rewrite add_url_spec. destruct (decide (u ∈ acc)); [done|].
  apply NoDup_app. split; [done|]. split; [|apply NoDup_singleton].
  intros x Hx ->%list_elem_of_singleton. done.
Qed.

Lemma collect_app (acc l1 l2 : list string) :
  foldl add_url acc (l1 ++ l2) = foldl add_url (foldl add_url acc l1) l2.
Proof. apply foldl_app. Qed.

(** A URL is listed right after the URLs discovered before its first
    discovery. *)
Lemma collect_first_discovery (p q : list string) u :
  u ∉ p ->
  exists b, foldl add_url [] (p ++ u :: q) = foldl add_url [] p ++ u :: b.
Proof.
  intros Hu. rewrite collect_app. simpl. rewrite add_url_spec.
  rewrite decide_False; [|by rewrite elem_of_collect, elem_of_nil; tauto].
  destruct (collect_extends (foldl add_url [] p ++ [u]) q) as [b ->].
  exists b. by rewrite <- app_assoc.
Qed.

(** One annotation: the scan stops at an object that is no dictionary,
    and otherwise records the target of the annotation, if it has one. *)
Lemma visit_annotation_spec urls r :
  visit_annotation urls r =
  match r with
  | AnnotResolves AnnotOther => Abort urls
  | _ => Continue (from_option (add_url urls) urls (annotation_target r))
  end.
Proof.
  destruct r as [[subtype [action|]|]|]; simpl; try done.
  - destruct (is_link subtype); simpl; [|done].
    destruct (action_uri action) as [uri|]; [|done].
    by destruct (uri_truthy uri).
  - by destruct (is_link subtype).
Qed.

Lemma stops_or_not r :
  r = AnnotResolves AnnotOther \/ r <> AnnotResolves AnnotOther.
Proof. destruct r as [[]|]; [by right|by left|by right]. Qed.

Lemma visit_annotations_spec urls l rest :
  match visit_annotations urls l with
  | Continue urls' =>
      reached (l ++ rest) = l ++ reached rest
      /\ urls' = foldl add_url urls (omap annotation_target l)
  | Abort urls' =>
      reached (l ++ rest) = reached l
      /\ urls' = foldl add_url urls (omap annotation_target (reached l))
  end.
Proof.
  revert urls. induction l as [|r l IH]; intros urls; [done|].
  destruct (stops_or_not r) as [->|Hr]; [done|].
  assert (Hstep : visit_annotations urls (r :: l)
                  = visit_annotations
                      (from_option (add_url urls) urls (annotation_target r)) l).
  { simpl. rewrite visit_annotation_spec. by destruct r as [[]|]. }
  assert (Hreach : forall l', reached (r :: l') = r :: reached l').
  { intros l'. by destruct r as [[]|]. }
  assert (Hcollect : forall l',
    foldl add_url urls (omap annotation_target (r :: l'))
    = foldl add_url (from_option (add_url urls) urls (annotation_target r))
        (omap annotation_target l')).
  { intros l'. simpl. by destruct (annotation_target r). }
  rewrite Hstep, <- app_comm_cons, !Hreach, !Hcollect.
  specialize (IH (from_option (add_url urls) urls (annotation_target r))).
  destruct (visit_annotations _ l) as [urls'|urls']; destruct IH as [-> ->]; done.
Qed.

Lemma visit_page_spec urls page rest :
  match visit_page urls page with
  | Continue urls' =>
      reached (page_annotations page ++ rest) = page_annotations page ++ reached rest
      /\ urls' = foldl add_url urls (omap annotation_target (page_annotations page))
  | Abort urls' =>
      reached (page_annotations page ++ rest) = reached (page_annotations page)
      /\ urls' = foldl add_url urls
                   (omap annotation_target (reached (page_annotations page)))
  end.
Proof.
  unfold visit_page, page_annotations.
  destruct (Annots page) as [[l|r]|]; [apply visit_annotations_spec| |done].
  apply (visit_annotations_spec urls [r] rest).
Qed.

(** The scan collects the hyperlink targets of the document. *)
Lemma visit_pages_collects urls pages :
  scanned (visit_pages urls pages) = foldl add_url urls (link_targets pages).
Proof.
  unfold link_targets. revert urls.
  induction pages as [|page pages IH]; intros urls; simpl; [done|].
  pose proof (visit_page_spec urls page (flat_map page_annotations pages)) as Hp.
  destruct (visit_page urls page) as [urls'|urls']; destruct Hp as [-> ->].
  - by rewrite IH, omap_app, collect_app.
  - done.
Qed.

Lemma extract_urls_from_pdf_collects `{Libraries} (fs : filesystem)
  file_path content pages :
  fs !! file_path = Some content -> PdfReader content = Ok pages ->
  extract_urls_from_pdf fs file_path = foldl add_url [] (link_targets pages).
Proof.
  intros Hf Hp. unfold extract_urls_from_pdf. rewrite Hf, Hp.
  apply visit_pages_collects.
Qed.

(** The text after the URLs were appended: the body, then the block. *)
Lemma append_lines text (urls : list string) :
  foldl (fun text url => text +:+ ("- " +:+ url +:+ nl)) text urls
  = text +:+ String.concat "" (map (fun url => "- " +:+ url +:+ nl) urls).
Proof.
  revert text. induction urls as [|u urls IH]; intros text; simpl.
  - by rewrite append_empty_r.
  - rewrite IH, append_assoc. f_equal.
    destruct urls as [|v urls]; [apply append_empty_r|reflexivity].
Qed.

Lemma append_urls_block text urls :
  urls <> [] -> append_urls text urls = text +:+ url_block urls.
Proof.
  destruct urls as [|u urls]; [done|]. intros _. unfold append_urls, url_block.
  rewrite append_lines. by rewrite !append_assoc.
Qed.

(** C4.  For a PDF that can be read: when no hyperlink is discovered the
    text returned is the body alone, without a URL block; when some are,
    the body is followed by a blank line, the header and one line per URL.
    The URLs listed are those discovered, each once, and each stands right
    after the URLs discovered before its own first discovery. *)
Theorem extract_text_from_pdf_url_block `{Libraries} (fs : filesystem)
  (file_path : string) (content : bytes) (pages : pdf_document) :
  fs !! file_path = Some content -> PdfReader content = Ok pages ->
  let found := link_targets pages in
  let urls := extract_urls_from_pdf fs file_path in
  (found = [] -> extract_text_from_pdf fs file_path = Ok (pdf_body pages))
  /\ (found <> [] ->
      extract_text_from_pdf fs file_path = Ok (pdf_body pages +:+ url_block urls))
  /\ NoDup urls
  /\ (forall u, u ∈ urls <-> u ∈ found)
  /\ (forall p u q, found = p ++ u :: q -> u ∉ p ->
        exists a b, urls = a ++ u :: b /\ forall v, v ∈ a <-> v ∈ p).
Proof.
  intros Hf Hp found urls.
  assert (Hurls : urls = foldl add_url [] found).
  { by eapply extract_urls_from_pdf_collects. }
  assert (Hmem : forall u, u ∈ urls <-> u ∈ found).
  { intros u. rewrite Hurls, elem_of_collect, elem_of_nil. tauto. }
  assert (Htext : extract_text_from_pdf fs file_path
                  = Ok (append_urls (pdf_body pages) urls)).
  { unfold extract_text_from_pdf. by rewrite Hf, Hp. }
  split; [|split; [|split; [|split]]].
  - intros Hnone. rewrite Htext, Hurls, Hnone. done.
  - intros Hsome. rewrite Htext, append_urls_block; [done|].
    intros Hnil. destruct found as [|u found']; [done|].
    specialize (Hmem u). rewrite Hnil, elem_of_nil in Hmem.
    apply Hmem. left.
  - rewrite Hurls. apply NoDup_collect, NoDup_nil_2.
  - done.
  - intros p u q Hfound Hu. rewrite Hurls, Hfound.
    destruct (collect_first_discovery p q u Hu) as [b ->].
    exists (foldl add_url [] p), b. split; [done|].
    intros v. rewrite elem_of_collect, elem_of_nil. tauto.
Qed.

End Urls.

(** ** Word documents *)

Section Docx.
Import PyStr ResumeExtractor Spec.

(** The byte-stream extractor returns the paragraph texts and nothing
    else, whatever the relationship table holds. *)
Lemma extract_text_from_docx_bytes_body `{Libraries} file_bytes doc :
  Document file_bytes = Ok doc ->
  extract_text_from_docx_bytes file_bytes
  = Ok (join nl (map (fun text => default "" text) (paragraphs doc))).
Proof. intros Hdoc. unfold extract_text_from_docx_bytes. by rewrite Hdoc. Qed.

(** From a path, the relationship table is scanned: the hyperlink targets
    are collected, each once, in the order of discovery. *)
Lemma visit_rels_collects urls (relationships : list relationship) :
  foldl visit_rel urls relationships
  = foldl add_url urls
      (hyperlink_targets {| paragraphs := []; rels := relationships |}).
Proof.
  unfold hyperlink_targets. simpl. revert urls.
  induction relationships as [|rel relationships IH]; intros urls; simpl; [done|].
  rewrite IH. unfold visit_rel, add_url.
  destruct (contains "hyperlink" (reltype rel)); simpl; [|done].
  destruct (truthy (target_ref rel)); simpl; [|done].
  destruct (startswith (target_ref rel) "#"); simpl;
    by destruct (in_list (target_ref rel) urls).
Qed.

Lemma extract_urls_from_docx_collects `{Libraries} (fs : filesystem) file_path
  content doc :
  fs !! file_path = Some content -> Document content = Ok doc ->
  extract_urls_from_docx fs file_path = foldl add_url [] (hyperlink_targets doc)
  /\ NoDup (extract_urls_from_docx fs file_path).
Proof.
  intros Hf Hdoc. unfold extract_urls_from_docx, Document_at.
  rewrite Hf, Hdoc, visit_rels_collects. split; [done|].
  apply NoDup_collect, NoDup_nil_2.
Qed.

(** C1, on the code: a Word document with one external hyperlink.  From a
    path, the hyperlink is recovered and the URL block appended; from the
    same bytes as a stream, the text comes back without it. *)
Theorem docx_bytes_drops_hyperlinks :
  let _ := Demo.libraries in
  let fs : filesystem := {[ "cv.docx" := Demo.docx_bytes ]} in
  Document Demo.docx_bytes = Ok Demo.sample_docx
  /\ hyperlink_targets Demo.sample_docx = ["https://a.example"]
  /\ extract_urls_from_docx fs "cv.docx" = ["https://a.example"]
  /\ extract_text_from_docx fs "cv.docx"
     = Ok (("Jane Doe" +:+ nl +:+ "Engineer") +:+ url_block ["https://a.example"])
  /\ (extract_text_from_bytes Demo.env Demo.docx_bytes "cv.docx" ∅).1
     = Ok ("Jane Doe" +:+ nl +:+ "Engineer").
Proof. vm_compute. by repeat split. Qed.

End Docx.

(** ** Temporary files and dispatch *)

Section Files.
Import PyStr ResumeExtractor.
Context `{Libraries}.

Lemma truthy_true s : truthy s = true <-> s <> "".
Proof. unfold truthy. by rewrite negb_true_iff, String.eqb_neq. Qed.

Lemma stage_succeeds env file_bytes (fs : filesystem) :
  create_fails env = false -> write_fails env = false ->
  tmp_name env <> "" -> fs !! tmp_name env = None ->
  stage env file_bytes fs
  = (Some (tmp_name env), Ok tt, <[tmp_name env := file_bytes]> fs).
Proof.
  intros Hc Hw Hname Hfree. unfold stage, NamedTemporaryFile, write.
  rewrite Hc, Hw, (proj2 (truthy_true _) Hname), Hfree.
  rewrite bool_decide_eq_false_2; [|by intros [? ?]]. simpl.
  by rewrite insert_insert_eq.
Qed.

(** The [finally] block never raises. *)
Lemma cleanup_never_raises env tmp_path (fs : filesystem) :
  (cleanup env tmp_path fs).1 = Ok tt.
Proof.
  unfold cleanup. destruct tmp_path as [path|]; [|done].
  destruct (truthy path); [|done]. unfold os_remove.
  destruct (remove_fails env); [done|]. by destruct (fs !! path).
Qed.

(** What the code keeps of the temporary-file contract on the exit paths
    after staging.  Once the bytes are staged in the temporary file, the outcome of
    the byte-stream extraction, a text or an exception, is that of the
    extraction from this file, whether or not the removal succeeds; when
    the removal succeeds the file is gone afterwards and the other files
    are as before, on a return and on a failure alike.  For bytes the PDF
    reader rejects, its exception reaches the caller. *)
Theorem extract_text_from_pdf_bytes_removes_tmp env (file_bytes : bytes)
  (fs : filesystem) :
  create_fails env = false -> write_fails env = false ->
  tmp_name env <> "" -> fs !! tmp_name env = None ->
  let staged : filesystem := <[tmp_name env := file_bytes]> fs in
  let run := extract_text_from_pdf_bytes env file_bytes fs in
  run.1 = extract_text_from_pdf staged (tmp_name env)
  /\ (remove_fails env = false -> run.2 = fs /\ run.2 !! tmp_name env = None)
  /\ (remove_fails env = true -> run.2 = staged)
  /\ (forall e, PdfReader file_bytes = Raise e -> run.1 = Raise e).
Proof.
  intros Hc Hw Hname Hfree staged run.
  assert (Hrun : run = (extract_text_from_pdf staged (tmp_name env),
                        if remove_fails env then staged else fs)).
  { unfold run, staged, extract_text_from_pdf_bytes.
    rewrite stage_succeeds by done.
    unfold cleanup, os_remove. rewrite (proj2 (truthy_true _) Hname).
    destruct (remove_fails env); [done|].
    rewrite lookup_insert_eq. simpl.
    by rewrite delete_insert_id. }
  rewrite Hrun. simpl. split; [done|]. split; [|split].
  - by intros ->.
  - by intros ->.
  - intros e He. unfold extract_text_from_pdf, staged.
    by rewrite lookup_insert_eq, He.
Qed.


(** C8.  An extension that, lower-cased, is none of .pdf, .docx and .doc
    makes both entry points fail with a [ValueError] whose message names
    the extension and the supported formats (the file-path entry point
    when the file exists); a path that does not exist makes the file-path
    entry point fail with [FileNotFoundError], whatever its extension. *)
Theorem unsupported_or_missing env (file_bytes : bytes) (fs : filesystem)
  (filename : string) :
  let extension := lower (path_suffix filename) in
  (extension ∉ [".pdf"; ".docx"; ".doc"] ->
   extract_text_from_bytes env file_bytes filename fs
   = (Raise (ValueError ("Unsupported file format: " +:+ extension
                         +:+ ". Supported formats: .pdf, .docx, .doc")), fs)
   /\ (is_Some (fs !! filename) ->
       extract_text_from_file fs filename
       = Raise (ValueError ("Unsupported file format: " +:+ extension
                            +:+ ". Supported formats: .pdf, .docx, .doc"))))
  /\ (fs !! filename = None ->
      extract_text_from_file fs filename
      = Raise (FileNotFoundError ("File not found: " +:+ filename))).
Proof.
  intros extension. split.
  - intros Hext.
    assert (Hpdf : String.eqb extension ".pdf" = false).
    { apply String.eqb_neq. intros E. apply Hext. rewrite E. left. }
    assert (Hdoc : in_list extension [".docx"; ".doc"] = false).
    { apply in_list_false. intros Hin. apply Hext. by right. }
    split.
    + unfold extract_text_from_bytes. fold extension. by rewrite Hpdf, Hdoc.
    + intros Hex. unfold extract_text_from_file. fold extension.
      by rewrite (bool_decide_eq_true_2 _ Hex), Hpdf, Hdoc.
  - intros Hmiss. unfold extract_text_from_file.
    rewrite bool_decide_eq_false_2; [done|]. rewrite Hmiss. by intros [? ?].
Qed.

End Files.


(** ** Result shapes *)

Section Shapes.
Import PyStr ResumeProcessor Spec.
Context `{Libraries}.

Lemma coerced_idem val : coerced (coerced val) = coerced val.
Proof. by destruct val. Qed.

(** One field: the value under the key is coerced, if there is one. *)
Lemma lookup_normalize_object_key (result : gmap string value) key k :
  normalize_object_key result key !! k
  = if decide (k = key) then coerced <$> result !! k else result !! k.
Proof.
  unfold normalize_object_key.
  destruct (decide (k = key)) as [->|Hne].
  - destruct (result !! key) as [[]|] eqn:E; simpl;
      rewrite ?lookup_insert_eq, ?E; done.
  - destruct (result !! key) as [[]|] eqn:E; simpl;
      rewrite ?lookup_insert_ne; done.
Qed.

Lemma lookup_normalize_object_keys (result : gmap string value) keys k :
  foldl normalize_object_key result keys !! k
  = if decide (k ∈ keys) then coerced <$> result !! k else result !! k.
Proof.
  revert result. induction keys as [|key keys IH]; intros result.
  - case_decide as Hin; [by apply elem_of_nil in Hin|done].
  - change (foldl normalize_object_key result (key :: keys))
      with (foldl normalize_object_key (normalize_object_key result key) keys).
    rewrite IH, lookup_normalize_object_key.
    destruct (decide (k = key)) as [->|Hne].
    + rewrite (decide_True (P := key ∈ key :: keys)); [|left].
      destruct (decide (key ∈ keys)); [|done].
      destruct (result !! key) as [val|]; simpl; [|done].
      by rewrite coerced_idem.
    + destruct (decide (k ∈ keys)) as [Hin|Hnin].
      * rewrite decide_True; [done|by right].
      * rewrite decide_False; [done|]. by intros [?|?]%elem_of_cons.
Qed.

(** The score block only touches [overall_score], and never raises. *)
Lemma normalize_overall_score_ok (result : gmap string value) :
  exists out, normalize_overall_score result = Ok out
    /\ (forall k, k <> "overall_score" -> out !! k = result !! k)
    /\ out !! "overall_score"
       = match result !! "overall_score" with
         | Some (VStr s) =>
             match float_of_str s with
             | Ok f => Some (VFloat f)
             | Raise _ => None
             end
         | other => other
         end.
Proof.
  unfold normalize_overall_score.
  destruct (result !! "overall_score") as [val|] eqn:E.
  - destruct val as [| | | |s| |];
      try (exists result; split; [done|]; split; [done|by rewrite E]).
    destruct (float_of_str s) as [f|e]; simpl.
    + eexists. split; [done|]. split; [|by rewrite lookup_insert_eq].
      intros k Hk. by rewrite lookup_insert_ne.
    + eexists. split; [done|]. split; [|by rewrite lookup_delete_eq].
      intros k Hk. by rewrite lookup_delete_ne.
  - exists result. split; [done|]. split; [done|by rewrite E].
Qed.

(** The normalizer on a mapping: every match field coerced, the score
    parsed or dropped. *)
Lemma normalize_screening_result_dict (result : gmap string value) :
  exists out, _normalize_screening_result (VDict result) = Ok (VDict out)
    /\ (forall key, key ∈ object_keys -> out !! key = coerced <$> result !! key)
    /\ out !! "overall_score"
       = match result !! "overall_score" with
         | Some (VStr s) =>
             match float_of_str s with
             | Ok f => Some (VFloat f)
             | Raise _ => None
             end
         | other => other
         end.
Proof.
  unfold _normalize_screening_result.
  destruct (normalize_overall_score_ok (foldl normalize_object_key result object_keys))
    as (out & -> & Hother & Hscore).
  exists out. split; [done|]. split.
  - intros key Hkey. rewrite Hother.
    + rewrite lookup_normalize_object_keys. by rewrite decide_True.
    + intros ->. unfold object_keys in Hkey.
      repeat (apply elem_of_cons in Hkey as [Hkey|Hkey]; [done|]).
      by apply elem_of_nil in Hkey.
  - rewrite Hscore, lookup_normalize_object_keys. rewrite decide_False; [done|].
    unfold object_keys. intros Hkey.
    repeat (apply elem_of_cons in Hkey as [Hkey|Hkey]; [done|]).
    by apply elem_of_nil in Hkey.
Qed.

(** C2, as the code has it.  In the output every named field that the input
    holds is coerced: a string to a mapping with it under [text], a list to
    a mapping with it under [items], [None] to the empty mapping, and a
    mapping, or any other value, is left as it is.  A named field the input
    does not hold is not in the output either. *)
Theorem normalize_screening_result_shapes (result : gmap string value)
  (key : string) :
  key ∈ object_keys ->
  exists out, _normalize_screening_result (VDict result) = Ok (VDict out)
    /\ out !! key = coerced <$> result !! key
    /\ (forall s, result !! key = Some (VStr s) ->
          out !! key = Some (VDict {[ "text" := VStr s ]}))
    /\ (forall l, result !! key = Some (VList l) ->
          out !! key = Some (VDict {[ "items" := VList l ]}))
    /\ (result !! key = Some VNone -> out !! key = Some (VDict ∅))
    /\ (forall o, result !! key = Some (VDict o) -> out !! key = Some (VDict o))
    /\ (result !! key = None -> out !! key = None).
Proof.
  intros Hkey.
  destruct (normalize_screening_result_dict result) as (out & Hout & Hkeys & _).
  exists out. split; [done|]. specialize (Hkeys key Hkey).
  split; [done|]. rewrite Hkeys.
  repeat split; intros; by match goal with E : _ !! _ = _ |- _ => rewrite E end.
Qed.

(** C7.  The normalizer returns on every input.  On a mapping, an
    [overall_score] that is a string becomes the number [float] parses it
    to, and is removed when [float] raises; an [overall_score] that is a
    number stays. *)
Theorem normalize_screening_result_total (result : value) :
  (exists out, _normalize_screening_result result = Ok out)
  /\ forall d, result = VDict d ->
       exists out, _normalize_screening_result result = Ok (VDict out)
         /\ (forall s f, d !! "overall_score" = Some (VStr s) ->
               float_of_str s = Ok f ->
               out !! "overall_score" = Some (VFloat f))
         /\ (forall s e, d !! "overall_score" = Some (VStr s) ->
               float_of_str s = Raise e ->
               out !! "overall_score" = None)
         /\ (forall z, d !! "overall_score" = Some (VInt z) ->
               out !! "overall_score" = Some (VInt z))
         /\ (forall f, d !! "overall_score" = Some (VFloat f) ->
               out !! "overall_score" = Some (VFloat f)).
Proof.
  split.
  - destruct result as [| | | | | |d]; try by eexists.
    destruct (normalize_screening_result_dict d) as (out & Hout & _).
    by eexists.
  - intros d ->.
    destruct (normalize_screening_result_dict d) as (out & Hout & _ & Hscore).
    exists out. split; [done|]. rewrite Hscore.
    repeat split; intros;
      repeat match goal with E : _ = _ |- _ => rewrite E; clear E end; done.
Qed.

End Shapes.

(** C2, as stated, fails: from the empty mapping the normalizer returns the
    empty mapping, in which [skill_match] is absent, not an empty object. *)
Lemma absent_field_stays_absent :
  let _ := Demo.libraries in
  ResumeProcessor._normalize_screening_result (VDict ∅) = Ok (VDict ∅)
  /\ ~ (exists out : gmap string value,
          ResumeProcessor._normalize_screening_result (VDict ∅) = Ok (VDict out)
          /\ out !! "skill_match" = Some (VDict ∅)).
Proof.
  simpl. split; [reflexivity|].
  intros (out & Hout & Hkey). vm_compute in Hout. by injection Hout as <-.
Qed.

(** ** Orchestration *)

Section Orchestration.
Import PyStr ResumeProcessor Utils Spec.
Context `{SetIteration} `{Libraries} `{Collaborators}.

(** The store after [screen_resume], whatever the scoring collaborator
    answers. *)
Lemma screen_resume_store (h : heap) parsed_resume d job_title job_description
  weights skills :
  h !! parsed_resume = Some d ->
  iterate (default (VList []) (d !! "skills")) = Ok skills ->
  (screen_resume h parsed_resume job_title job_description weights).2
  = <[parsed_resume := <["skills" := reconciled skills job_description]> d]> h.
Proof.
  intros Hd Hskills. unfold screen_resume, reconciled. rewrite Hd, Hskills.
  rewrite insert_insert_eq.
  destruct (screener_screen_resume _ job_title job_description weights)
    as [[dump|other]|e]; done.
Qed.

Lemma screen_and_optimise_store (h : heap) parsed d job_title job_description
  weights skills :
  h !! parsed = Some d ->
  iterate (default (VList []) (d !! "skills")) = Ok skills ->
  let run := screen_and_optimise h parsed job_title job_description weights in
  run.2 = <[parsed := <["skills" := reconciled skills job_description]> d]> h
  /\ forall r, run.1 = Ok r -> ResumeProcessor.parsed r = parsed.
Proof.
  intros Hd Hskills run. unfold run, screen_and_optimise.
  pose proof (screen_resume_store h parsed d job_title job_description weights
                skills Hd Hskills) as Hstore.
  destruct (screen_resume h parsed job_title job_description weights)
    as [[screened|e] h']; simpl in Hstore; subst h'; [|done].
  destruct (optimise_resume _ parsed job_title job_description screened)
    as [optimization|e]; simpl; [|done].
  split; [done|]. by intros r [= <-].
Qed.

(** C10.  [screen_resume] changes the mapping it is given: afterwards its
    [skills] entry is the normalized and expanded skill list, its other
    entries and the other mappings are as before, whatever the scoring
    collaborator answers.  The mapping under [parsed] in the result of the
    two parse-and-screen workflows is this same mapping, so it holds these
    skills instead of the parser's. *)
Theorem screen_resume_mutates_skills :
  (forall (h : heap) parsed_resume d job_title job_description weights skills,
     h !! parsed_resume = Some d ->
     iterate (default (VList []) (d !! "skills")) = Ok skills ->
     let h' := (screen_resume h parsed_resume job_title job_description weights).2 in
     exists d', h' !! parsed_resume = Some d'
       /\ d' !! "skills" = Some (reconciled skills job_description)
       /\ (forall k, k <> "skills" -> d' !! k = d !! k)
       /\ (forall a, a <> parsed_resume -> h' !! a = h !! a))
  /\ (forall (fs : filesystem) (h : heap) file_path job_title job_description
             weights resume_text d skills r h',
        ResumeExtractor.extract_text_from_file fs file_path = Ok resume_text ->
        parser_parse_resume resume_text = Ok d ->
        iterate (default (VList []) (d !! "skills")) = Ok skills ->
        process_resume_from_path fs h file_path job_title job_description weights
        = (Ok r, h') ->
        h' !! ResumeProcessor.parsed r
        = Some (<["skills" := reconciled skills job_description]> d))
  /\ (forall env (fs : filesystem) (h : heap) (file_bytes : bytes) filename
             job_title job_description weights resume_text d skills r fs' h',
        (ResumeExtractor.extract_text_from_bytes env file_bytes filename fs).1
        = Ok resume_text ->
        parser_parse_resume resume_text = Ok d ->
        iterate (default (VList []) (d !! "skills")) = Ok skills ->
        process_resume_from_bytes env fs h file_bytes filename job_title
          job_description weights
        = (Ok r, fs', h') ->
        h' !! ResumeProcessor.parsed r
        = Some (<["skills" := reconciled skills job_description]> d)).
Proof.
  split; [|split].
  - intros h parsed_resume d job_title job_description weights skills Hd Hskills h'.
    unfold h'. rewrite (screen_resume_store _ _ d _ _ _ skills) by done.
    eexists. split; [apply lookup_insert_eq|].
    split; [apply lookup_insert_eq|]. split.
    + intros k Hk. by rewrite lookup_insert_ne.
    + intros a Ha. by rewrite lookup_insert_ne.
  - intros fs h file_path job_title job_description weights resume_text d skills
      r h' Htext Hparse Hskills.
    unfold process_resume_from_path, parse_resume_from_path.
    rewrite Htext, Hparse. unfold alloc.
    set (a := fresh (dom h)). intros Hrun.
    destruct (screen_and_optimise_store (<[a := d]> h) a d job_title
                job_description weights skills) as [Hstore Hparsed];
      [apply lookup_insert_eq|done|].
    rewrite Hrun in Hstore, Hparsed. simpl in Hstore, Hparsed.
    rewrite (Hparsed r eq_refl), Hstore. apply lookup_insert_eq.
  - intros env fs h file_bytes filename job_title job_description weights
      resume_text d skills r fs' h' Htext Hparse Hskills.
    unfold process_resume_from_bytes, parse_resume_from_bytes.
    destruct (ResumeExtractor.extract_text_from_bytes env file_bytes filename fs)
      as [text fs1]. simpl in Htext. subst text.
    rewrite Hparse. unfold alloc.
    set (a := fresh (dom h)).
    destruct (screen_and_optimise_store (<[a := d]> h) a d job_title
                job_description weights skills) as [Hstore Hparsed];
      [apply lookup_insert_eq|done|].
    destruct (screen_and_optimise (<[a := d]> h) a job_title job_description weights)
      as [r0 h0]. simpl in Hstore, Hparsed.
    intros [= -> _ ->]. rewrite (Hparsed r eq_refl), Hstore.
    apply lookup_insert_eq.
Qed.

End Orchestration.

(** ** The properties on concrete inputs *)

Section Examples.
Import PyStr Spec.

(** Case and surrounding white space do not matter, and a variant folds to
    its canonical name. *)
Example normalized_mysql :
  Utils.normalized_set [" MySQL "; "sql"; "Rust"] = {[ "sql"; "rust" ]}.
Proof. by vm_compute. Qed.

(** Three link annotations, the first target twice: two URLs, in the
    order of first discovery. *)
Example sample_pdf_urls :
  ResumeExtractor.scanned (ResumeExtractor.visit_pages [] Demo.sample_pdf)
  = ["https://a.example"; "https://b.example"].
Proof. reflexivity. Qed.

Example simple_suffix_examples :
  map Demo.simple_suffix ["cv.PDF"; "dir.d/cv"; ".profile"; "cv.tar.gz"; "cv."]
  = [".PDF"; ""; ""; ".gz"; ""].
Proof. reflexivity. Qed.

Lemma demo_scorer_total : @scorer_total Demo.libraries.
Proof.
  intros a b. simpl. destruct (String.eqb a b); eexists; (split; [done|]);
    split; by vm_compute.
Qed.

Lemma fuzzy_scorer_total : @scorer_total Demo.fuzzy_libraries.
Proof.
  intros a b. simpl. destruct (contains b a || contains a b); eexists;
    (split; [done|]); split; by vm_compute.
Qed.

Lemma fuzzy_expand_skills_expands_witness :
  let expanded :=
    @Utils.fuzzy_expand_skills Demo.elements_iteration Demo.fuzzy_libraries
      ["mysql"] "SQL wanted" 85 in
  NoDup expanded /\ "sql" ∈ expanded /\ ("sql" ∉ ["mysql"])
  /\ ("sql" ∈ Utils.all_known <->
      exists c V, (c, V) ∈ Utils.SKILL_SYNONYMS /\ ("sql" = c \/ "sql" ∈ V)).
Proof.
  intros expanded.
  destruct (@fuzzy_expand_skills_expands Demo.elements_iteration
              Demo.fuzzy_libraries ["mysql"] "SQL wanted" 85)
    as (_ & _ & Hexpand & _ & _ & Hknown).
  destruct Hexpand as (Hnodup & _ & Hadds).
  - discriminate.
  - discriminate.
  - exists "sql". split; [|reflexivity].
    apply elem_of_union_r, elem_of_list_to_set. left.
  - exact fuzzy_scorer_total.
  - split; [exact Hnodup|]. split; [|split; [|apply Hknown]].
    + destruct (Hadds "mysql") as (m & q & (Hm & Hq & _) & Hin); [left|].
      assert (Hterms : @Utils.jd_terms_of Demo.elements_iteration "SQL wanted"
                       = ["sql"]) by by vm_compute.
      rewrite Hterms in Hm. apply list_elem_of_singleton in Hm. subst m.
      apply Hin. simpl in Hq. injection Hq as <-. by vm_compute.
    + intros Hin. apply list_elem_of_singleton in Hin. discriminate.
Defined.

Lemma extract_text_from_pdf_url_block_witness :
  let fs : filesystem := {[ "cv.pdf" := Demo.pdf_bytes ]} in
  fs !! "cv.pdf" = Some Demo.pdf_bytes
  /\ @PdfReader Demo.libraries Demo.pdf_bytes = Ok Demo.sample_pdf
  /\ @ResumeExtractor.extract_text_from_pdf Demo.libraries fs "cv.pdf"
     = Ok ("Jane Doe"
           +:+ url_block ["https://a.example"; "https://b.example"]).
Proof.
  intros fs. split; [reflexivity|]. split; [reflexivity|].
  destruct (@extract_text_from_pdf_url_block Demo.libraries fs "cv.pdf"
              Demo.pdf_bytes Demo.sample_pdf eq_refl eq_refl)
    as (_ & Hblock & _).
  apply Hblock. discriminate.
Defined.

Lemma extract_text_from_pdf_bytes_removes_tmp_witness :
  let run := @ResumeExtractor.extract_text_from_pdf_bytes Demo.libraries
               Demo.env Demo.truncated_bytes ∅ in
  run.1 = Raise (LibraryError "EOF marker not found") /\ run.2 = ∅.
Proof.
  destruct (@extract_text_from_pdf_bytes_removes_tmp Demo.libraries Demo.env
              Demo.truncated_bytes ∅ eq_refl eq_refl ltac:(discriminate) eq_refl)
    as (_ & Hgone & _ & Hraise).
  split; [apply Hraise; reflexivity|apply Hgone; reflexivity].
Defined.

Lemma unsupported_or_missing_witness :
  @ResumeExtractor.extract_text_from_bytes Demo.libraries Demo.env [] "cv.txt" ∅
  = (Raise (ValueError
       "Unsupported file format: .txt. Supported formats: .pdf, .docx, .doc"), ∅).
Proof.
  destruct (@unsupported_or_missing Demo.libraries Demo.env [] ∅ "cv.txt")
    as [Hunsupported _].
  apply Hunsupported. simpl.
  intros Hin. repeat (apply elem_of_cons in Hin as [Hin|Hin]; [discriminate|]).
  by apply elem_of_nil in Hin.
Defined.

Lemma normalize_screening_result_shapes_witness :
  exists out : gmap string value,
    @ResumeProcessor._normalize_screening_result Demo.libraries
      (VDict {[ "skill_match" := VStr "strong fit" ]}) = Ok (VDict out)
    /\ out !! "skill_match" = Some (VDict {[ "text" := VStr "strong fit" ]}).
Proof.
  destruct (@normalize_screening_result_shapes Demo.libraries
              {[ "skill_match" := VStr "strong fit" ]} "skill_match")
    as (out & Hout & _ & Hstr & _).
  - unfold ResumeProcessor.object_keys. repeat constructor.
  - exists out. split; [exact Hout|]. apply Hstr. reflexivity.
Defined.

Lemma screen_resume_mutates_skills_witness :
  let h : heap := {[ 0%nat := Demo.sample_resume ]} in
  let h' := (@ResumeProcessor.screen_resume Demo.elements_iteration
               Demo.libraries Demo.collaborators h 0%nat "Engineer"
               "Requires strong SQL/MySQL experience" None).2 in
  exists d', h' !! 0%nat = Some d'
    /\ d' !! "skills"
       = Some (@reconciled Demo.elements_iteration Demo.libraries
                 [" MySQL "; "Rust"] "Requires strong SQL/MySQL experience")
    /\ d' !! "name" = Some (VStr "Jane Doe").
Proof.
  intros h h'.
  destruct (@screen_resume_mutates_skills Demo.elements_iteration
              Demo.libraries Demo.collaborators) as [Hscreen _].
  destruct (Hscreen h 0%nat Demo.sample_resume "Engineer"
              "Requires strong SQL/MySQL experience" None [" MySQL "; "Rust"]
              eq_refl eq_refl)
    as (d' & Hd' & Hskills & Hother & _).
  exists d'. split; [exact Hd'|]. split; [exact Hskills|].
  rewrite Hother; [reflexivity|discriminate].
Defined.

End Examples.

(** * Further properties of the code *)

(** ** Skill normalization and expansion *)

Section MoreSkills.
Import PyStr Utils Spec.
Context `{SetIteration} `{Libraries}.

(** What normalization returns is in normal form: each skill is
    lower-case, trimmed, and is what the table folds it to. *)
Theorem normalize_skills_normal_form (skills : list string) (x : string) :
  x ∈ normalize_skills skills ->
  strip (lower x) = x /\ lookup_canonical x = x.
Proof.
  unfold normalize_skills. rewrite elem_of_list_of_set, elem_of_normalized_set.
  intros (s & _ & ->).
  assert (Hx : lookup_canonical (strip (lower s))
               = match first_match SKILL_SYNONYMS (strip (lower s)) with
                 | Some c => c
                 | None => strip (lower s)
                 end) by done.
  destruct (first_match SKILL_SYNONYMS (strip (lower s))) as [c|] eqn:E;
    rewrite Hx.
  - apply first_match_some in E. by apply canonical_fixed.
  - split; [apply clean_idem|]. unfold lookup_canonical. by rewrite E.
Qed.

(** Normalization sees its input through [s.lower().strip()] only: two
    lists whose cleaned entries are the same, in any order and with any
    repetition, normalize to the same set. *)
Theorem normalized_set_insensitive (skills skills' : list string) :
  (forall t, t ∈ map (fun s => strip (lower s)) skills
             <-> t ∈ map (fun s => strip (lower s)) skills') ->
  normalized_set skills = normalized_set skills'.
Proof.
  intros Hsame. apply set_eq. intros x. rewrite !elem_of_normalized_set.
  split; intros (s & Hs & ->).
  - assert (Ht : strip (lower s) ∈ map (fun s => strip (lower s)) skills').
    { apply Hsame, list_elem_of_fmap. by exists s. }
    apply list_elem_of_fmap in Ht as (s' & E & Hs'). exists s'. by rewrite E.
  - assert (Ht : strip (lower s) ∈ map (fun s => strip (lower s)) skills).
    { apply Hsame, list_elem_of_fmap. by exists s. }
    apply list_elem_of_fmap in Ht as (s' & E & Hs'). exists s'. by rewrite E.
Qed.

(** Normalizing two lists together gives the union of their normalized
    sets. *)
Theorem normalized_set_app (skills skills' : list string) :
  normalized_set (skills ++ skills')
  = normalized_set skills ∪ normalized_set skills'.
Proof.
  apply set_eq. intros x.
  rewrite elem_of_union, !elem_of_normalized_set. split.
  - intros (s & Hs & ->). apply elem_of_app in Hs as [Hs|Hs];
      [left|right]; by exists s.
  - intros [(s & Hs & ->)|(s & Hs & ->)]; exists s;
      (split; [|done]); apply elem_of_app; [by left|by right].
Qed.

(** Normalization returns at most as many skills as it was given; none
    for none. *)
Theorem normalize_skills_length (skills : list string) :
  length (normalize_skills skills) <= length skills.
Proof.
  rewrite <- (length_map (fun s => lookup_canonical (strip (lower s))) skills).
  apply submseteq_length, NoDup_submseteq.
  - apply NoDup_list_of_set.
  - intros x Hx. unfold normalize_skills in Hx.
    apply elem_of_list_of_set, elem_of_normalized_set in Hx as (s & Hs & ->).
    apply list_elem_of_fmap. by exists s.
Qed.

Lemma extractOne_nil query : extractOne query [] = Ok None.
Proof. reflexivity. Qed.

(** The score returned with a match is the score of that match. *)
Lemma extractOne_from_scored query choices key cutoff best m q k :
  extractOne_from query choices key cutoff best = Ok (Some (m, q, k)) ->
  best = Some (m, q, k) \/ token_set_ratio query m = Ok q.
Proof.
  revert key cutoff best.
  induction choices as [|choice rest IH]; intros key cutoff best; simpl.
  - intros [= ->]. by left.
  - destruct (token_set_ratio query choice) as [score|] eqn:Es; [|done].
    destruct (Qle_bool cutoff score && improves score best);
      destruct (Qeq_bool score 100).
    + intros [= <- <- _]. by right.
    + intros Hr. apply IH in Hr as [[= <- <- _]|?]; by right.
    + intros [= ->]. by left.
    + apply IH.
Qed.

(** The elements of the expansion, in all its cases. *)
Lemma elem_of_expanded skills jd_text threshold x :
  x ∈ fuzzy_expand_skills skills jd_text threshold <->
  x ∈ skills \/
  (jd_text <> "" /\
   exists skill q k, skill ∈ skills
     /\ extractOne skill (jd_terms_of jd_text) = Ok (Some (x, q, k))
     /\ (threshold <= q)%Q).
Proof.
  destruct skills as [|s0 skills].
  { split; [by intros ?%elem_of_nil|].
    intros [?%elem_of_nil|(_ & s & q & k & ?%elem_of_nil & _)]; done. }
  destruct (decide (jd_text = "")) as [->|Hjd].
  { rewrite fuzzy_expand_skills_unchanged by (right; by left).
    split; [by left|]. by intros [?|[? _]]. }
  destruct (jd_terms_of jd_text) as [|t ts] eqn:Eterms.
  { rewrite fuzzy_expand_skills_unchanged.
    - split; [by left|]. intros [?|(_ & s & q & k & _ & E & _)]; [done|].
      by rewrite extractOne_nil in E.
    - right; right. intros t Ht%elem_of_jd_terms. rewrite Eterms in Ht.
      by apply elem_of_nil in Ht. }
  rewrite elem_of_fuzzy_expand_skills; [|done|done|by rewrite Eterms].
  rewrite Eterms. apply or_iff_compat_l. split; [by intros ?|by intros [_ ?]].
Qed.

(** Expansion works skill by skill: expanding two lists together gives
    the union of their expansions.  A skill for which the scorer fails
    adds nothing and does not keep the others from being expanded. *)
Theorem fuzzy_expand_skills_app skills skills' jd_text threshold :
  list_to_set (fuzzy_expand_skills (skills ++ skills') jd_text threshold)
  =@{gset string}
  list_to_set (fuzzy_expand_skills skills jd_text threshold)
  ∪ list_to_set (fuzzy_expand_skills skills' jd_text threshold).
Proof.
  apply set_eq. intros x.
  rewrite elem_of_union, !elem_of_list_to_set, !elem_of_expanded, elem_of_app.
  split.
  - intros [[?|?]|(Hjd & s & q & k & Hs & E & Hq)];
      [by left; left|by right; left|].
    apply elem_of_app in Hs as [Hs|Hs]; [left|right]; right;
      (split; [done|]); by exists s, q, k.
  - intros [[?|(Hjd & s & q & k & Hs & E & Hq)]|[?|(Hjd & s & q & k & Hs & E & Hq)]];
      [by left; left| |by left; right|];
      right; (split; [done|]); exists s, q, k;
      (split; [|done]); apply elem_of_app; [by left|by right].
Qed.

(** Raising the threshold can only remove skills from the expansion. *)
Theorem fuzzy_expand_skills_threshold skills jd_text (low high : Q) x :
  (low <= high)%Q ->
  x ∈ fuzzy_expand_skills skills jd_text high ->
  x ∈ fuzzy_expand_skills skills jd_text low.
Proof.
  intros Hle. rewrite !elem_of_expanded.
  intros [?|(Hjd & s & q & k & Hs & E & Hq)]; [by left|right].
  split; [done|]. exists s, q, k. split; [done|]. split; [done|].
  by eapply Qle_trans.
Qed.

(** With a scorer that stays within 100, a threshold above 100 turns the
    expansion off: the result holds exactly the skills given. *)
Theorem fuzzy_expand_skills_above_range skills jd_text (threshold : Q) x :
  (forall a b q, token_set_ratio a b = Ok q -> (q <= 100)%Q) ->
  (100 < threshold)%Q ->
  x ∈ fuzzy_expand_skills skills jd_text threshold <-> x ∈ skills.
Proof.
  intros Hrange Hthreshold. rewrite elem_of_expanded. split; [|by left].
  intros [?|(_ & s & q & k & _ & E & Hq)]; [done|]. exfalso.
  assert (Hq100 : (q <= 100)%Q).
  { apply extractOne_from_scored in E as [?|Hscore]; [done|].
    by eapply Hrange. }
  apply (Qlt_irrefl 100). eapply Qlt_le_trans; [exact Hthreshold|].
  by eapply Qle_trans.
Qed.

Lemma matched_for_length terms threshold skill :
  length (matched_for terms threshold skill) <= 1.
Proof.
  unfold matched_for.
  destruct (extractOne skill terms) as [[[[m q] k]|]|]; simpl; try lia.
  destruct (Qle_bool threshold q); simpl; lia.
Qed.

Lemma matched_length terms threshold skills :
  length (flat_map (matched_for terms threshold) skills) <= length skills.
Proof.
  induction skills as [|s skills IH]; simpl; [done|].
  rewrite length_app. pose proof (matched_for_length terms threshold s). lia.
Qed.

(** Expansion adds at most one term per skill. *)
Theorem fuzzy_expand_skills_length skills jd_text threshold :
  length (fuzzy_expand_skills skills jd_text threshold) <= 2 * length skills.
Proof.
  unfold fuzzy_expand_skills.
  destruct (bool_decide (skills = []) || negb (truthy jd_text)); [lia|].
  destruct (bool_decide (jd_terms_of jd_text = [])); [lia|].
  pose proof (matched_length (jd_terms_of jd_text) threshold skills) as Hmatched.
  transitivity (length (skills ++ flat_map (matched_for (jd_terms_of jd_text)
                                              threshold) skills));
    [|rewrite length_app; lia].
  apply submseteq_length, NoDup_submseteq; [apply NoDup_list_of_set|].
  intros x Hx. by apply elem_of_list_of_set, elem_of_list_to_set in Hx.
Qed.

End MoreSkills.

(** ** Extraction *)

Section MoreExtraction.
Import PyStr ResumeExtractor Spec.
Context `{Libraries}.

Lemma visit_annotations_app urls l1 l2 :
  visit_annotations urls (l1 ++ l2)
  = match visit_annotations urls l1 with
    | Continue urls' => visit_annotations urls' l2
    | Abort urls' => Abort urls'
    end.
Proof.
  revert urls. induction l1 as [|r l1 IH]; intros urls; simpl; [done|].
  by destruct (visit_annotation urls r).
Qed.

Lemma visit_pages_app urls pages1 pages2 :
  visit_pages urls (pages1 ++ pages2)
  = match visit_pages urls pages1 with
    | Continue urls' => visit_pages urls' pages2
    | Abort urls' => Abort urls'
    end.
Proof.
  revert urls. induction pages1 as [|page pages1 IH]; intros urls; simpl; [done|].
  by destruct (visit_page urls page).
Qed.

Lemma visit_annotation_no_url urls r :
  carries_no_url r -> visit_annotation urls r = Continue urls.
Proof.
  intros [->|(subtype & action & -> & Hcase)]; [done|]. simpl.
  destruct (is_link subtype); simpl; [|done].
  destruct Hcase as [?|[->|[->|[->|[->|(uri & -> & Huri)]]]]]; try done.
  simpl. by rewrite Huri.
Qed.

(** A broken or irrelevant annotation is skipped: the scan of a document
    gives the same with and without it. *)
Theorem visit_pages_skips urls pages1 pages2 text l1 r l2 :
  carries_no_url r ->
  visit_pages urls (pages1 ++ page_with text (l1 ++ r :: l2) :: pages2)
  = visit_pages urls (pages1 ++ page_with text (l1 ++ l2) :: pages2).
Proof.
  intros Hr. rewrite !visit_pages_app.
  destruct (visit_pages urls pages1) as [urls'|urls']; [|done]. simpl.
  unfold visit_page. simpl. rewrite !visit_annotations_app.
  destruct (visit_annotations urls' l1) as [urls''|urls'']; [|done]. simpl.
  by rewrite visit_annotation_no_url.
Qed.

(** An annotation that resolves to something other than a dictionary ends
    the scan: what follows it on the page, and the later pages, add
    nothing to the URLs found before it. *)
Theorem visit_pages_stops urls text l1 l2 pages :
  scanned (visit_pages urls
             (page_with text (l1 ++ AnnotResolves AnnotOther :: l2) :: pages))
  = scanned (visit_annotations urls l1).
Proof.
  simpl. unfold visit_page. simpl. rewrite visit_annotations_app.
  by destruct (visit_annotations urls l1).
Qed.

(** More pages only append: the URLs of the first pages are a prefix of
    the URLs of the document. *)
Theorem visit_pages_prefix urls pages1 pages2 :
  scanned (visit_pages urls pages1)
  `prefix_of` scanned (visit_pages urls (pages1 ++ pages2)).
Proof.
  rewrite visit_pages_app.
  destruct (visit_pages urls pages1) as [urls'|urls']; simpl; [|done].
  rewrite visit_pages_collects.
  destruct (collect_extends urls' (link_targets pages2)) as [tail ->].
  by exists tail.
Qed.

(** The text of a PDF depends on the content of the file only. *)
Lemma extract_text_from_pdf_content (fs1 fs2 : filesystem) path1 path2 content :
  fs1 !! path1 = Some content -> fs2 !! path2 = Some content ->
  extract_text_from_pdf fs1 path1 = extract_text_from_pdf fs2 path2.
Proof.
  intros H1 H2. unfold extract_text_from_pdf, extract_urls_from_pdf.
  by rewrite H1, H2.
Qed.

(** The byte-stream extraction of a PDF, once the bytes are staged. *)
Lemma extract_text_from_pdf_bytes_staged env (file_bytes : bytes)
  (fs : filesystem) :
  create_fails env = false -> write_fails env = false ->
  tmp_name env <> "" -> fs !! tmp_name env = None ->
  extract_text_from_pdf_bytes env file_bytes fs
  = (extract_text_from_pdf (<[tmp_name env := file_bytes]> fs) (tmp_name env),
     if remove_fails env then <[tmp_name env := file_bytes]> fs else fs).
Proof.
  intros Hc Hw Hname Hfree. unfold extract_text_from_pdf_bytes.
  rewrite stage_succeeds by done.
  unfold cleanup, os_remove. rewrite (proj2 (truthy_true _) Hname).
  destruct (remove_fails env); [done|].
  rewrite lookup_insert_eq. simpl. by rewrite delete_insert_id.
Qed.

(** An uploaded PDF gives the text that the same bytes give as a file,
    whatever the names and whether or not the temporary file could be
    removed. *)
Theorem pdf_bytes_agree_with_file env (file_bytes : bytes) (fs : filesystem)
  (filename file_path : string) :
  create_fails env = false -> write_fails env = false ->
  tmp_name env <> "" -> fs !! tmp_name env = None ->
  lower (path_suffix filename) = ".pdf" ->
  lower (path_suffix file_path) = ".pdf" ->
  fs !! file_path = Some file_bytes ->
  (extract_text_from_bytes env file_bytes filename fs).1
  = extract_text_from_file fs file_path.
Proof.
  intros Hc Hw Hname Hfree Hext Hext' Hfile.
  unfold extract_text_from_bytes, extract_text_from_file.
  rewrite Hext, Hext'.
  rewrite bool_decide_eq_true_2 by (rewrite Hfile; by eexists). simpl.
  rewrite extract_text_from_pdf_bytes_staged by done. simpl.
  apply (extract_text_from_pdf_content _ _ _ _ file_bytes); [|done].
  apply lookup_insert_eq.
Qed.

(** When writing and removing files work, the extraction from bytes leaves
    the file system as it found it: for every file name, whether the
    extraction returns or raises, and whether or not the temporary file
    could be created. *)
Theorem no_temporary_file_left env (file_bytes : bytes) (filename : string)
  (fs : filesystem) :
  write_fails env = false -> remove_fails env = false ->
  (extract_text_from_bytes env file_bytes filename fs).2 = fs.
Proof.
  intros Hw Hr. unfold extract_text_from_bytes.
  destruct (String.eqb (lower (path_suffix filename)) ".pdf");
    [|by destruct (in_list _ _)].
  unfold extract_text_from_pdf_bytes, stage, NamedTemporaryFile, write.
  rewrite Hw.
  destruct (create_fails env || negb (truthy (tmp_name env))
            || bool_decide (is_Some (fs !! tmp_name env))) eqn:Ecreate; [done|].
  apply orb_false_iff in Ecreate as [Ecreate Hfree].
  apply orb_false_iff in Ecreate as [_ Hname].
  apply negb_false_iff in Hname.
  apply bool_decide_eq_false in Hfree.
  unfold cleanup, os_remove. rewrite Hname, Hr, lookup_insert_eq. simpl.
  rewrite insert_insert_eq, delete_insert_id; [done|].
  destruct (fs !! tmp_name env) eqn:E; [|done]. destruct Hfree. by eexists.
Qed.

Lemma texts_of_strings texts : texts_of (map Some texts) = Ok texts.
Proof. induction texts as [|t texts IH]; simpl; [done|]. by rewrite IH. Qed.

Lemma texts_or_empty (texts : list string) :
  map (fun text : option string => default "" text) (map Some texts) = texts.
Proof. induction texts as [|t texts IH]; simpl; [done|]. by rewrite IH. Qed.

Lemma elem_of_hyperlink_targets doc u :
  u ∈ hyperlink_targets doc <->
  u <> "" /\ startswith u "#" = false
  /\ exists rel, rel ∈ rels doc /\ target_ref rel = u
                 /\ contains "hyperlink" (reltype rel) = true.
Proof.
  unfold hyperlink_targets. rewrite list_elem_of_fmap. split.
  - intros (rel & -> & Hrel). apply list_elem_of_In, filter_In in Hrel as [Hin Hok].
    apply andb_true_iff in Hok as [Hok Hanchor].
    apply andb_true_iff in Hok as [Hlink Htruthy].
    split; [by apply truthy_true|]. split; [by apply negb_true_iff|].
    exists rel. by rewrite list_elem_of_In.
  - intros (Hne & Hanchor & rel & Hin & <- & Hlink). exists rel. split; [done|].
    apply list_elem_of_In, filter_In. split; [by apply list_elem_of_In|].
    by rewrite Hlink, (proj2 (truthy_true _) Hne), Hanchor.
Qed.

(** From a path, a Word document whose paragraphs have a text gives these
    texts joined by newlines, followed by the URL block when the
    relationship table holds hyperlinks.  The URLs listed are the targets
    of the relationships whose type mentions a hyperlink, except empty
    targets and anchors, each once, in the order of the table. *)
Theorem extract_text_from_docx_url_block (fs : filesystem) file_path content
  doc texts :
  fs !! file_path = Some content -> Document content = Ok doc ->
  paragraphs doc = map Some texts ->
  let urls := extract_urls_from_docx fs file_path in
  extract_text_from_docx fs file_path
  = Ok (if decide (urls = []) then join nl texts
        else join nl texts +:+ url_block urls)
  /\ NoDup urls
  /\ (forall u, u ∈ urls <->
        u <> "" /\ startswith u "#" = false
        /\ exists rel, rel ∈ rels doc /\ target_ref rel = u
                       /\ contains "hyperlink" (reltype rel) = true)
  /\ (forall p u q, hyperlink_targets doc = p ++ u :: q -> u ∉ p ->
        exists a b, urls = a ++ u :: b /\ forall v, v ∈ a <-> v ∈ p).
Proof.
  intros Hf Hdoc Htexts urls.
  destruct (extract_urls_from_docx_collects fs file_path content doc Hf Hdoc)
    as [Hurls Hnodup].
  fold urls in Hurls, Hnodup.
  split; [|split; [done|split]].
  - unfold extract_text_from_docx, Document_at.
    rewrite Hf, Hdoc, Htexts, texts_of_strings. fold urls.
    destruct (decide (urls = [])) as [->|Hne]; [done|].
    by rewrite append_urls_block.
  - intros u. rewrite Hurls, elem_of_collect, elem_of_nil.
    rewrite <- elem_of_hyperlink_targets. tauto.
  - intros p u q Hfound Hu. rewrite Hurls, Hfound.
    destruct (collect_first_discovery p q u Hu) as [b ->].
    exists (foldl add_url [] p), b. split; [done|].
    intros v. rewrite elem_of_collect, elem_of_nil. tauto.
Qed.

(** On a Word document without hyperlinks the two extractors agree: the
    bytes give the text the file gives. *)
Theorem docx_bytes_agree_without_links (fs : filesystem) file_path content
  doc texts :
  fs !! file_path = Some content -> Document content = Ok doc ->
  paragraphs doc = map Some texts ->
  (forall rel, rel ∈ rels doc ->
     contains "hyperlink" (reltype rel) = false
     \/ target_ref rel = "" \/ startswith (target_ref rel) "#" = true) ->
  extract_text_from_docx_bytes content = extract_text_from_docx fs file_path.
Proof.
  intros Hf Hdoc Htexts Hnone.
  destruct (extract_text_from_docx_url_block fs file_path content doc texts
              Hf Hdoc Htexts) as (-> & _ & Hmem & _).
  unfold extract_text_from_docx_bytes. rewrite Hdoc, Htexts.
  rewrite decide_True.
  - by rewrite texts_or_empty.
  - destruct (extract_urls_from_docx fs file_path) as [|u urls] eqn:E; [done|].
    exfalso. destruct (proj1 (Hmem u)) as (Hne & Hanchor & rel & Hin & Ht & Hlink);
      [left|].
    destruct (Hnone rel Hin) as [?|[?|?]]; congruence.
Qed.

End MoreExtraction.

(** ** The result-shape normalizer and the orchestrator *)

Section MoreShapes.
Import PyStr ResumeProcessor Utils Spec.
Context `{SetIteration} `{Libraries} `{Collaborators}.

Lemma not_object_key k :
  k = "overall_score" -> k ∉ object_keys.
Proof.
  intros -> Hin. unfold object_keys in Hin.
  repeat (apply elem_of_cons in Hin as [Hin|Hin]; [done|]).
  by apply elem_of_nil in Hin.
Qed.

(** Every entry of the normalized mapping. *)
Lemma normalize_screening_result_lookup (result : gmap string value) :
  exists out, _normalize_screening_result (VDict result) = Ok (VDict out)
    /\ forall k, out !! k
         = if decide (k ∈ object_keys) then coerced <$> result !! k
           else if decide (k = "overall_score") then score_of (result !! k)
           else result !! k.
Proof.
  unfold _normalize_screening_result.
  destruct (normalize_overall_score_ok (foldl normalize_object_key result object_keys))
    as (out & -> & Hother & Hscore).
  exists out. split; [done|]. intros k.
  destruct (decide (k = "overall_score")) as [->|Hk].
  - rewrite Hscore, lookup_normalize_object_keys.
    rewrite !(decide_False (P := "overall_score" ∈ object_keys))
      by by apply not_object_key.
    by destruct (result !! "overall_score") as [[]|].
  - rewrite Hother, lookup_normalize_object_keys by done.
    by destruct (decide (k ∈ object_keys)).
Qed.

Lemma score_of_idem val : score_of (score_of val) = score_of val.
Proof.
  destruct val as [[| | | |s| |]|]; simpl; try done.
  by destruct (float_of_str s).
Qed.

(** The normalizer is idempotent: what it returns, it returns unchanged. *)
Theorem normalize_screening_result_idempotent (result : gmap string value) :
  exists out, _normalize_screening_result (VDict result) = Ok (VDict out)
    /\ _normalize_screening_result (VDict out) = Ok (VDict out).
Proof.
  destruct (normalize_screening_result_lookup result) as (out & Hout & Hlookup).
  exists out. split; [done|].
  destruct (normalize_screening_result_lookup out) as (out' & -> & Hlookup').
  do 2 f_equal. apply map_eq. intros k. rewrite Hlookup', !Hlookup.
  destruct (decide (k ∈ object_keys)).
  - destruct (result !! k); simpl; [|done]. by rewrite coerced_idem.
  - destruct (decide (k = "overall_score")); [apply score_of_idem|done].
Qed.

(** The normalizer touches the named match fields and [overall_score]
    only, and adds no key: the other entries are as in the input, and the
    keys of the output are those of the input, [overall_score] possibly
    removed. *)
Theorem normalize_screening_result_frame (result : gmap string value) :
  exists out, _normalize_screening_result (VDict result) = Ok (VDict out)
    /\ (forall k, k ∉ object_keys -> k <> "overall_score" ->
                  out !! k = result !! k)
    /\ dom out ⊆ dom result
    /\ dom result ∖ {[ "overall_score" ]} ⊆ dom out.
Proof.
  destruct (normalize_screening_result_lookup result) as (out & Hout & Hlookup).
  exists out. split; [done|]. split; [|split].
  - intros k Hk Hscore. rewrite Hlookup.
    by rewrite decide_False, decide_False.
  - intros k [v Hv]%elem_of_dom. apply elem_of_dom. rewrite Hlookup in Hv.
    destruct (decide (k ∈ object_keys)).
    + destruct (result !! k); [by eexists|done].
    + destruct (decide (k = "overall_score")); [|by eexists].
      destruct (result !! k); [by eexists|done].
  - intros k [[v Hv]%elem_of_dom Hk]%elem_of_difference.
    apply elem_of_dom. rewrite Hlookup, Hv.
    destruct (decide (k ∈ object_keys)); [by eexists|].
    rewrite decide_False; [by eexists|]. intros ->. apply Hk.
    by apply elem_of_singleton.
Qed.

(** After normalization no named match field holds a string, a list or
    [None], and [overall_score] is not a string. *)
Theorem normalize_screening_result_shaped (result : gmap string value) :
  exists out, _normalize_screening_result (VDict result) = Ok (VDict out)
    /\ (forall key val, key ∈ object_keys -> out !! key = Some val ->
                        ~ loose val)
    /\ (forall val, out !! "overall_score" = Some val -> ~ is_string val).
Proof.
  destruct (normalize_screening_result_lookup result) as (out & Hout & Hlookup).
  exists out. split; [done|]. split.
  - intros key val Hkey. rewrite Hlookup, decide_True by done.
    destruct (result !! key) as [[]|]; simpl; intros [= <-]; tauto.
  - intros val. rewrite Hlookup.
    rewrite decide_False by by apply not_object_key.
    rewrite decide_True by done.
    destruct (result !! "overall_score") as [[| | | |s| |]|]; simpl;
      try (intros [= <-]; tauto).
    destruct (float_of_str s); intros [= <-]; tauto.
Qed.

Lemma normalize_skills_nil : normalize_skills [] = [].
Proof.
  unfold normalize_skills, normalized_set. simpl.
  apply Permutation_nil_r. by rewrite (list_of_set_perm ∅), elements_empty.
Qed.

(** A resume without a [skills] entry gets one: the empty list. *)
Theorem screen_resume_missing_skills (h : heap) parsed_resume d job_title
  job_description weights :
  h !! parsed_resume = Some d -> d !! "skills" = None ->
  (screen_resume h parsed_resume job_title job_description weights).2
  = <[parsed_resume := <["skills" := VList []]> d]> h.
Proof.
  intros Hd Hnone.
  rewrite (screen_resume_store h parsed_resume d _ _ _ []); [|done|by rewrite Hnone].
  unfold reconciled. rewrite normalize_skills_nil.
  by rewrite fuzzy_expand_skills_unchanged by by left.
Qed.

Lemma strings_of_not_string items item :
  item ∈ items -> ~ is_string item -> exists e, strings_of items = Raise e.
Proof.
  induction items as [|v items IH]; [by intros ?%elem_of_nil|].
  intros [E|Hin]%elem_of_cons Hitem.
  - subst v. destruct item; simpl in *; try tauto; eexists; reflexivity.
  - destruct (IH Hin Hitem) as [e He].
    destruct v; simpl; rewrite ?He; eexists; reflexivity.
Qed.

(** A [skills] entry that cannot be normalized ([None], a number, a
    boolean, or a list with an item that is not a string) makes
    [screen_resume] raise before it changes anything: the store is as
    before. *)
Theorem screen_resume_rejects_skills (h : heap) parsed_resume d job_title
  job_description weights v :
  h !! parsed_resume = Some d -> d !! "skills" = Some v ->
  (v = VNone \/ (exists b, v = VBool b) \/ (exists z, v = VInt z)
   \/ (exists f, v = VFloat f)
   \/ (exists items item, v = VList items /\ item ∈ items /\ ~ is_string item)) ->
  exists e,
    screen_resume h parsed_resume job_title job_description weights
    = (Raise e, h).
Proof.
  intros Hd Hv Hshape. unfold screen_resume. rewrite Hd, Hv. simpl.
  destruct Hshape as [->|[[b ->]|[[z ->]|[[f ->]|(items & item & -> & Hin & Hitem)]]]];
    simpl; try by eexists.
  destruct (strings_of_not_string items item Hin Hitem) as [e ->]. by eexists.
Qed.

(** What [screen_resume] returns is a normalized mapping: no named match
    field in it holds a string, a list or [None], and its [overall_score]
    is not a string. *)
Theorem screen_resume_returns_shaped (h : heap) parsed_resume job_title
  job_description weights screened :
  (screen_resume h parsed_resume job_title job_description weights).1
  = Ok screened ->
  exists out, screened = VDict out
    /\ (forall key val, key ∈ object_keys -> out !! key = Some val ->
                        ~ loose val)
    /\ (forall val, out !! "overall_score" = Some val -> ~ is_string val).
Proof.
  unfold screen_resume.
  destruct (h !! parsed_resume) as [d|]; [|done].
  destruct (iterate _) as [skills|]; [|done].
  destruct (screener_screen_resume _ job_title job_description weights)
    as [[dump|other]|e]; cbn [fst]; [|done..].
  destruct (normalize_screening_result_shaped dump) as (out & -> & Hkeys & Hscore).
  intros [= <-]. by exists out.
Qed.

(** A missing path or an unsupported extension ends a workflow before the
    parser is called: the error of the extractor reaches the caller, and
    the store and the files are as before. *)
Theorem process_resume_rejects (env : ResumeExtractor.os_env)
  (fs : filesystem) (h : heap) (file_bytes : bytes) (name : string)
  job_title job_description weights :
  (fs !! name = None ->
   process_resume_from_path fs h name job_title job_description weights
   = (Raise (FileNotFoundError ("File not found: " +:+ name)), h))
  /\ (lower (path_suffix name) ∉ [".pdf"; ".docx"; ".doc"] ->
      process_resume_from_bytes env fs h file_bytes name job_title
        job_description weights
      = (Raise (ValueError ("Unsupported file format: "
                            +:+ lower (path_suffix name)
                            +:+ ". Supported formats: .pdf, .docx, .doc")),
         fs, h)).
Proof.
  split.
  - intros Hmiss. unfold process_resume_from_path, parse_resume_from_path.
    unfold ResumeExtractor.extract_text_from_file.
    rewrite bool_decide_eq_false_2; [done|]. rewrite Hmiss. by intros [? ?].
  - intros Hext. unfold process_resume_from_bytes, parse_resume_from_bytes.
    unfold ResumeExtractor.extract_text_from_bytes.
    assert (String.eqb (lower (path_suffix name)) ".pdf" = false) as ->.
    { apply String.eqb_neq. intros E. apply Hext. rewrite E. left. }
    assert (in_list (lower (path_suffix name)) [".docx"; ".doc"] = false) as ->.
    { apply in_list_false. intros Hin. apply Hext. by right. }
    done.
Qed.

End MoreShapes.

(** ** The upload endpoints *)

Section MoreApp.
Import PyStr Spec.
Context `{SetIteration} `{Libraries} `{Collaborators} `{Json}.

Lemma parse_resume_from_bytes_files env (fs : filesystem) (h : heap)
  (file_bytes : bytes) filename :
  (ResumeProcessor.parse_resume_from_bytes env fs h file_bytes filename).1.2
  = (ResumeExtractor.extract_text_from_bytes env file_bytes filename fs).2.
Proof.
  unfold ResumeProcessor.parse_resume_from_bytes.
  destruct (ResumeExtractor.extract_text_from_bytes env file_bytes filename fs)
    as [[text|e] fs']; [|done].
  by destruct (parser_parse_resume text).
Qed.

Lemma weights_of_rejected req answer :
  App.weights_of req = inr answer -> answer.2 = 400%nat.
Proof.
  unfold App.weights_of. repeat case_match; intros; by simplify_eq.
Qed.

(** A request that is answered with status 400 was not processed: no
    file was staged and the store is as before. *)
Theorem rejected_requests_touch_nothing env (fs : filesystem) (h : heap) req :
  ((App.parse_resume env fs h req).1.1.2 = 400%nat ->
   (App.parse_resume env fs h req).1.2 = fs
   /\ (App.parse_resume env fs h req).2 = h)
  /\ ((App.screen_resume env fs h req).1.1.2 = 400%nat ->
      (App.screen_resume env fs h req).1.2 = fs
      /\ (App.screen_resume env fs h req).2 = h)
  /\ ((App.optimize_resume env fs h req).1.1.2 = 400%nat ->
      (App.optimize_resume env fs h req).1.2 = fs
      /\ (App.optimize_resume env fs h req).2 = h).
Proof.
  unfold App.parse_resume, App.screen_resume, App.optimize_resume.
  split; [|split]; repeat case_match; simpl; intros; by simplify_eq.
Qed.

(** The endpoints accept a file by the ending of its name, the extractor
    selects by the suffix of the path: a name that ends in a supported
    extension but has another suffix passes the check of [/api/parse] and
    is answered with status 500 and the extractor's message. *)
Theorem accepted_name_without_suffix env (fs : filesystem) (h : heap) req file :
  App.files req !! "file" = Some file ->
  let file_name := App.file_name_of file in
  file_name <> "" -> App.supported_ending file_name = true ->
  lower (path_suffix file_name) ∉ [".pdf"; ".docx"; ".doc"] ->
  App.parse_resume env fs h req
  = ((VDict {[ "success" := VBool false;
               "error" := VStr ("Unsupported file format: "
                                +:+ lower (path_suffix file_name)
                                +:+ ". Supported formats: .pdf, .docx, .doc") ]},
      500%nat), fs, h).
Proof.
  intros Hfile file_name Hname Hending Hsuffix.
  unfold App.parse_resume. rewrite Hfile. fold file_name.
  rewrite (proj2 (truthy_true _) Hname), Hending. simpl.
  unfold ResumeProcessor.parse_resume_from_bytes,
    ResumeExtractor.extract_text_from_bytes.
  assert (String.eqb (lower (path_suffix file_name)) ".pdf" = false) as ->.
  { apply String.eqb_neq. intros E. apply Hsuffix. rewrite E. left. }
  assert (in_list (lower (path_suffix file_name)) [".docx"; ".doc"] = false) as ->.
  { apply in_list_false. intros Hin. apply Hsuffix. by right. }
  done.
Qed.

(** When writing and removing files work, no endpoint leaves a file
    behind, whatever it answers. *)
Theorem endpoints_leave_no_file env (fs : filesystem) (h : heap) req :
  ResumeExtractor.write_fails env = false ->
  ResumeExtractor.remove_fails env = false ->
  (App.parse_resume env fs h req).1.2 = fs
  /\ (App.screen_resume env fs h req).1.2 = fs
  /\ (App.optimize_resume env fs h req).1.2 = fs.
Proof.
  intros Hw Hr.
  assert (Hparse : forall file_bytes file_name,
    (ResumeProcessor.parse_resume_from_bytes env fs h file_bytes file_name).1.2
    = fs).
  { intros. rewrite parse_resume_from_bytes_files.
    by apply no_temporary_file_left. }
  unfold App.parse_resume, App.screen_resume, App.optimize_resume.
  split; [|split]; repeat case_match; simpl; try done;
    match goal with
    | E : ResumeProcessor.parse_resume_from_bytes _ _ _ ?b ?n = _ |- _ =>
        pose proof (Hparse b n) as Hfs; rewrite E in Hfs; exact Hfs
    end.
Qed.

(** The resume in a successful answer of [/api/screen] is the parsed
    resume after screening: its [skills] are the normalized and expanded
    ones, not those the parser returned. *)
Theorem screen_answer_carries_reconciled_skills env (fs fs' : filesystem)
  (h h' : heap) req body :
  App.screen_resume env fs h req = ((body, 200%nat), fs', h') ->
  exists file resume_text d skills screened,
    App.files req !! "file" = Some file
    /\ (ResumeExtractor.extract_text_from_bytes env (App.content file)
          (App.file_name_of file) fs).1 = Ok resume_text
    /\ parser_parse_resume resume_text = Ok d
    /\ ResumeProcessor.iterate (default (VList []) (d !! "skills")) = Ok skills
    /\ body
       = VDict
           {[ "success" := VBool true;
              "data" :=
                VDict {[ "parsed" :=
                           VDict (<["skills" :=
                                      reconciled skills
                                        (App.field req "job_description")]> d);
                         "screened" := screened ]};
              "cache_status" :=
                VDict {[ "parsed_cached" := VBool false;
                         "screening_cached" := VBool false ]} ]}.
Proof.
  unfold App.screen_resume.
  destruct (App.files req !! "file") as [file|]; [|intros ?; by simplify_eq].
  destruct (negb (truthy (App.file_name_of file))); [intros ?; by simplify_eq|].
  destruct (negb (App.supported_ending (App.file_name_of file)));
    [intros ?; by simplify_eq|].
  destruct (negb (truthy (App.field req "job_title"))
            || negb (truthy (App.field req "job_description")));
    [intros ?; by simplify_eq|].
  destruct (App.weights_of req) as [weights|answer] eqn:Eweights.
  2:{ intros ?. simplify_eq. by apply weights_of_rejected in Eweights. }
  unfold ResumeProcessor.parse_resume_from_bytes.
  destruct (ResumeExtractor.extract_text_from_bytes env (App.content file)
              (App.file_name_of file) fs) as [[resume_text|e] fs1] eqn:Eextract;
    [|intros ?; by simplify_eq].
  destruct (parser_parse_resume resume_text) as [d|e] eqn:Eparse;
    [|intros ?; by simplify_eq].
  unfold ResumeProcessor.alloc. set (a := fresh (dom h)).
  cbv beta iota zeta.
  destruct (ResumeProcessor.iterate (default (VList []) (d !! "skills")))
    as [skills|e] eqn:Eskills.
  2:{ unfold ResumeProcessor.screen_resume.
      assert (<[a := d]> h !! a = Some d) as -> by apply lookup_insert_eq.
      rewrite Eskills. intros ?. by simplify_eq. }
  pose proof (screen_resume_store (<[a := d]> h) a d
                (App.field req "job_title") (App.field req "job_description")
                weights skills (lookup_insert_eq _ _ _) Eskills) as Hstore.
  destruct (ResumeProcessor.screen_resume (<[a := d]> h) a _ _ weights)
    as [[screened|e] h2]; [|intros ?; by simplify_eq].
  simpl in Hstore. subst h2. intros ?. simplify_eq.
  exists file, resume_text, d, skills, screened.
  repeat split; try done; [by rewrite Eextract|].
  unfold App.deref. by rewrite lookup_insert_eq.
Qed.

End MoreApp.

(** ** The further properties on concrete inputs *)

Section MoreExamples.
Import PyStr Spec.

Example endswith_examples :
  map App.supported_ending ["cv.PDF"; ".pdf"; "cv.pdf.txt"; "pdf"; "a.docx"]
  = [true; true; false; false; true].
Proof. reflexivity. Qed.

Lemma demo_scorer_range a b q :
  @token_set_ratio Demo.libraries a b = Ok q -> (q <= 100)%Q.
Proof. simpl. destruct (String.eqb a b); intros [= <-]; by vm_compute. Qed.

Lemma normalize_skills_normal_form_witness :
  strip (lower "sql") = "sql" /\ Utils.lookup_canonical "sql" = "sql".
Proof.
  apply (@normalize_skills_normal_form Demo.elements_iteration [" MySQL "] "sql").
  vm_compute. constructor.
Defined.

Lemma normalized_set_insensitive_witness :
  Utils.normalized_set [" SQL"; "sql"; "Rust"]
  = Utils.normalized_set ["rust "; "sql"].
Proof.
  apply normalized_set_insensitive. intros t.
  change (t ∈ ["sql"; "sql"; "rust"] <-> t ∈ ["rust"; "sql"]).
  rewrite !elem_of_cons, !elem_of_nil. tauto.
Defined.

Lemma fuzzy_expand_skills_threshold_witness :
  "sql" ∈ @Utils.fuzzy_expand_skills Demo.elements_iteration Demo.libraries
            ["sql"] "SQL wanted" 85.
Proof.
  apply (@fuzzy_expand_skills_threshold Demo.elements_iteration Demo.libraries
           ["sql"] "SQL wanted" 85 90 "sql").
  - by vm_compute.
  - vm_compute. constructor.
Defined.

Lemma fuzzy_expand_skills_above_range_witness :
  "mysql" ∈ @Utils.fuzzy_expand_skills Demo.elements_iteration Demo.libraries
              ["mysql"] "sql and mysql" 101
  <-> "mysql" ∈ ["mysql"].
Proof.
  apply (@fuzzy_expand_skills_above_range Demo.elements_iteration
           Demo.libraries).
  - exact demo_scorer_range.
  - by vm_compute.
Defined.

Lemma visit_pages_skips_witness :
  ResumeExtractor.visit_pages []
    ([] ++ page_with None ([Demo.link "https://a.example"]
                           ++ AnnotDangling :: [Demo.link "https://b.example"])
        :: [])
  = ResumeExtractor.visit_pages []
      ([] ++ page_with None ([Demo.link "https://a.example"]
                             ++ [Demo.link "https://b.example"]) :: []).
Proof. apply visit_pages_skips. by left. Defined.

Lemma pdf_bytes_agree_with_file_witness :
  let fs : filesystem := {[ "cv.pdf" := Demo.pdf_bytes ]} in
  (@ResumeExtractor.extract_text_from_bytes Demo.libraries Demo.env
     Demo.pdf_bytes "upload.PDF" fs).1
  = @ResumeExtractor.extract_text_from_file Demo.libraries fs "cv.pdf".
Proof.
  intros fs.
  apply (@pdf_bytes_agree_with_file Demo.libraries Demo.env Demo.pdf_bytes fs
           "upload.PDF" "cv.pdf");
    try reflexivity.
  discriminate.
Defined.

Lemma no_temporary_file_left_witness :
  (@ResumeExtractor.extract_text_from_bytes Demo.libraries Demo.env
     Demo.truncated_bytes "cv.pdf" ∅).2 = ∅.
Proof.
  apply (@no_temporary_file_left Demo.libraries Demo.env); reflexivity.
Defined.

Lemma extract_text_from_docx_url_block_witness :
  let fs : filesystem := {[ "cv.docx" := Demo.docx_bytes ]} in
  NoDup (@ResumeExtractor.extract_urls_from_docx Demo.libraries fs "cv.docx").
Proof.
  intros fs.
  destruct (@extract_text_from_docx_url_block Demo.libraries fs "cv.docx"
              Demo.docx_bytes Demo.sample_docx ["Jane Doe"; "Engineer"]
              eq_refl eq_refl eq_refl) as (_ & Hnodup & _).
  exact Hnodup.
Defined.

Lemma docx_bytes_agree_without_links_witness :
  let fs : filesystem := {[ "cv.docx" := Demo.docx_bytes ]} in
  @ResumeExtractor.extract_text_from_docx_bytes Demo.plain_libraries
    Demo.docx_bytes
  = @ResumeExtractor.extract_text_from_docx Demo.plain_libraries fs "cv.docx".
Proof.
  intros fs.
  apply (@docx_bytes_agree_without_links Demo.plain_libraries fs "cv.docx"
           Demo.docx_bytes Demo.plain_docx ["Jane Doe"; "Engineer"]);
    try reflexivity.
  simpl. intros rel Hrel. apply list_elem_of_singleton in Hrel as ->. by left.
Defined.

Lemma screen_resume_missing_skills_witness :
  let h : heap := {[ 0%nat := {[ "name" := VStr "Jane Doe" ]} ]} in
  (@ResumeProcessor.screen_resume Demo.elements_iteration Demo.libraries
     Demo.collaborators h 0%nat "Engineer" "SQL wanted" None).2
  = <[0%nat := <["skills" := VList []]> {[ "name" := VStr "Jane Doe" ]}]> h.
Proof.
  intros h.
  apply (@screen_resume_missing_skills Demo.elements_iteration Demo.libraries
           Demo.collaborators); reflexivity.
Defined.

Lemma screen_resume_rejects_skills_witness :
  let h : heap := {[ 0%nat := {[ "skills" := VList [VStr "sql"; VInt 3] ]} ]} in
  exists e,
    @ResumeProcessor.screen_resume Demo.elements_iteration Demo.libraries
      Demo.collaborators h 0%nat "Engineer" "SQL wanted" None
    = (Raise e, h).
Proof.
  intros h.
  apply (@screen_resume_rejects_skills Demo.elements_iteration Demo.libraries
           Demo.collaborators h 0%nat {[ "skills" := VList [VStr "sql"; VInt 3] ]}
           "Engineer" "SQL wanted" None (VList [VStr "sql"; VInt 3]));
    try reflexivity.
  do 4 right. exists [VStr "sql"; VInt 3], (VInt 3).
  split; [reflexivity|]. split; [|simpl; tauto]. right. left.
Defined.

Lemma screen_resume_returns_shaped_witness :
  let h : heap := {[ 0%nat := Demo.sample_resume ]} in
  exists screened out,
    (@ResumeProcessor.screen_resume Demo.elements_iteration Demo.libraries
       Demo.collaborators h 0%nat "Engineer" "SQL wanted" None).1 = Ok screened
    /\ screened = VDict out
    /\ out !! "overall_score" = Some (VFloat Demo.seven_and_a_half).
Proof.
  intros h.
  assert (Hrun :
    (@ResumeProcessor.screen_resume Demo.elements_iteration Demo.libraries
       Demo.collaborators h 0%nat "Engineer" "SQL wanted" None).1
    = Ok (VDict {[ "overall_score" := VFloat Demo.seven_and_a_half;
                   "skill_match" := VDict {[ "text" := VStr "strong fit" ]} ]})).
  { by vm_compute. }
  destruct (@screen_resume_returns_shaped Demo.elements_iteration
              Demo.libraries Demo.collaborators h 0%nat "Engineer" "SQL wanted"
              None _ Hrun) as (out & Hout & _).
  eexists _, out. split; [exact Hrun|]. split; [exact Hout|].
  injection Hout as <-. reflexivity.
Defined.

Lemma accepted_name_without_suffix_witness :
  (@App.parse_resume Demo.libraries Demo.collaborators Demo.env ∅ ∅
     Demo.hidden_pdf_request).1.1
  = (VDict {[ "success" := VBool false;
              "error" := VStr "Unsupported file format: . Supported formats: .pdf, .docx, .doc" ]},
     500%nat).
Proof.
  rewrite (@accepted_name_without_suffix Demo.libraries Demo.collaborators
             Demo.env ∅ ∅ Demo.hidden_pdf_request
             {| App.filename := Some ".pdf"; App.content := Demo.pdf_bytes |});
    try reflexivity.
  - discriminate.
  - simpl. intros Hin.
    repeat (apply elem_of_cons in Hin as [Hin|Hin]; [discriminate|]).
    by apply elem_of_nil in Hin.
Defined.

Lemma endpoints_leave_no_file_witness :
  (@App.screen_resume Demo.elements_iteration Demo.libraries Demo.collaborators
     Demo.json Demo.env ∅ ∅ Demo.screen_request).1.2 = ∅.
Proof.
  destruct (@endpoints_leave_no_file Demo.elements_iteration Demo.libraries
              Demo.collaborators Demo.json Demo.env ∅ ∅ Demo.screen_request
              eq_refl eq_refl) as (_ & Hscreen & _).
  exact Hscreen.
Defined.

Lemma screen_answer_carries_reconciled_skills_witness :
  exists body fs' h',
    @App.screen_resume Demo.elements_iteration Demo.libraries
      Demo.collaborators Demo.json Demo.env ∅ ∅ Demo.screen_request
    = ((body, 200%nat), fs', h')
    /\ exists d skills screened,
         @parser_parse_resume Demo.collaborators
           ("Jane Doe"
            +:+ url_block ["https://a.example"; "https://b.example"]) = Ok d
         /\ body
            = VDict
                {[ "success" := VBool true;
                   "data" :=
                     VDict {[ "parsed" :=
                                VDict (<["skills" :=
                                          @reconciled Demo.elements_iteration
                                            Demo.libraries skills
                                            "Requires strong SQL/MySQL experience"]> d);
                              "screened" := screened ]};
                   "cache_status" :=
                     VDict {[ "parsed_cached" := VBool false;
                              "screening_cached" := VBool false ]} ]}.
Proof.
  destruct (@App.screen_resume Demo.elements_iteration Demo.libraries
              Demo.collaborators Demo.json Demo.env ∅ ∅ Demo.screen_request)
    as [[[body status] fs'] h'] eqn:Erun.
  assert (Hstatus : status = 200%nat).
  { pose proof Erun as Erun'. vm_compute in Erun'. by injection Erun' as _ <- _ _. }
  subst status.
  destruct (@screen_answer_carries_reconciled_skills Demo.elements_iteration
              Demo.libraries Demo.collaborators Demo.json Demo.env ∅ fs' ∅ h'
              Demo.screen_request body Erun)
    as (file & text & d & skills & screened & _ & _ & Hparse & _ & Hbody).
  exists body, fs', h'. split; [reflexivity|].
  exists d, skills, screened. split; [exact Hparse|exact Hbody].
Defined.

End MoreExamples.
